(** * rfcontrol.py: controller for mechanical RF attenuation units

    A shallow embedding of [RfControl] and [get_acm_ctrl_list].  The Python
    built-ins the program relies on are written out in module [Py]; the
    pyvisa library and the attenuators behind it are an interface ([Visa])
    whose calls are threaded through an explicit state and recorded in a
    log; exceptions are values of an error monad. *)

From Stdlib Require Import String Ascii List ZArith Lia Bool Arith.
From Stdlib Require Import Decimal DecimalString DecimalNat.
Import ListNotations.
Local Open Scope string_scope.
Local Open Scope list_scope.

(** ** Python built-ins used by the program *)

Module Py.

(** [needle in hay] on two [str] values: substring test. *)
Fixpoint str_contains (needle hay : string) : bool :=
  if String.prefix needle hay then true
  else match hay with
       | EmptyString => false
       | String _ rest => str_contains needle rest
       end.

(** [s.split(sep)] for a one-character separator.  The result is never
    empty: [''.split(',')] is [['']]. *)
Fixpoint split_on (sep : ascii) (s : string) : list string :=
  match s with
  | EmptyString => [EmptyString]
  | String c rest =>
      if Ascii.eqb c sep then EmptyString :: split_on sep rest
      else match split_on sep rest with
           | field :: fields => String c field :: fields
           | [] => [String c EmptyString]
           end
  end.

(** [l.index(x)]: position of the first element equal to [x]; [None]
    stands for the [ValueError] raised when [x] does not occur. *)
Fixpoint list_index (x : string) (l : list string) : option nat :=
  match l with
  | [] => None
  | y :: rest =>
      if String.eqb x y then Some 0
      else option_map S (list_index x rest)
  end.

(** ['%d' % n] for a non-negative integer. *)
Definition fmt_d (n : nat) : string :=
  NilEmpty.string_of_uint (Nat.to_uint n).

(** [x in l] for a [str] [x] and a list of [str]: equality on the exact
    characters. *)
Definition str_in (x : string) (l : list string) : bool :=
  existsb (String.eqb x) l.

(** A [dict] with [str] keys.  Since Python 3.7 a dict iterates in
    insertion order, and assigning to an existing key keeps the key's
    position: the items are kept as an association list in that order. *)
Definition dict (V : Type) : Type := list (string * V).

(** [d[k] = v] *)
Fixpoint dict_set {V : Type} (k : string) (v : V) (d : dict V) : dict V :=
  match d with
  | [] => [(k, v)]
  | (k', v') :: rest =>
      if String.eqb k k' then (k', v) :: rest
      else (k', v') :: dict_set k v rest
  end.

(** [d[k]]; [None] stands for [KeyError]. *)
Fixpoint dict_get {V : Type} (k : string) (d : dict V) : option V :=
  match d with
  | [] => None
  | (k', v') :: rest =>
      if String.eqb k k' then Some v' else dict_get k rest
  end.

Definition dict_keys {V : Type} (d : dict V) : list string := map fst d.
Definition dict_values {V : Type} (d : dict V) : list V := map snd d.
Definition dict_items {V : Type} (d : dict V) : list (string * V) := d.

(** [k in d.keys()] *)
Definition dict_mem {V : Type} (k : string) (d : dict V) : bool :=
  str_in k (dict_keys d).

(** The exceptions that can cross the program.  [VisaIOError] carries the
    VISA status code; [OtherError] is any further exception the library
    may raise. *)
Inductive exn : Type :=
| NameError (msg : string)
| ValueError (msg : string)
| KeyError (key : string)
| AttributeError (msg : string)
| TypeError (msg : string)
| VisaIOError (status : Z)
| OtherError (msg : string).

(** The outcome of evaluating an expression: a value or a raised
    exception. *)
Inductive result (A : Type) : Type :=
| Ret (a : A)
| Raise (e : exn).
Arguments Ret {A} a.
Arguments Raise {A} e.

End Py.
Import Py.

(** VI_ERROR_TMO, the status of a timed-out read. *)
Definition VI_ERROR_TMO : Z := (-1073807339)%Z.

(** The default arguments of [RfControl.__init__]: [timeout=1000] and
    [line_termination='\r\n']. *)
Definition default_timeout : Z := 1000%Z.
Definition default_line_termination : string :=
  String "013"%char (String "010"%char EmptyString).

(** ** [get_acm_ctrl_list] (rfcontrol.py, line 156) *)

Definition get_acm_ctrl_list (interfaces_list : list string) : list string :=
  filter (fun elem => str_contains "ACM" elem) interfaces_list.

(** ** The environment of the program *)

(** Python's [float]: the type of its values, [float(s)] on a [str]
    ([None] stands for [ValueError]: the text is not a number), and
    ['{:f}'.format(x)]. *)
Class FloatOps : Type := {
  float_t : Type;
  float_of_str : string -> option float_t;
  format_f : float_t -> string
}.

(** The pyvisa calls the program makes.  [world] is the state of the
    library and of the attenuators behind it; every call may change it and
    may raise. *)
Class Visa : Type := {
  world : Type;
  manager : Type;
  session : Type;
  (** [visa.ResourceManager(backend)] *)
  ResourceManager : string -> world -> result manager * world;
  (** [rm.list_resources()] *)
  list_resources : manager -> world -> result (list string) * world;
  (** [rm.open_resource(address)] *)
  open_resource : manager -> string -> world -> result session * world;
  (** [ins.read_termination = t] *)
  set_read_termination : session -> string -> world -> result unit * world;
  (** [ins.timeout = ms] *)
  set_timeout : session -> Z -> world -> result unit * world;
  (** [ins.query(command)]: write the command, read one line *)
  query : session -> string -> world -> result string * world;
  (** [ins.close()] *)
  close : session -> world -> result unit * world;
  (** [rm.close()] *)
  close_manager : manager -> world -> result unit * world
}.

Section Program.

Context {FO : FloatOps} {V : Visa}.

(** One entry per pyvisa call, in the order the calls are made.  [EvOpen]
    records the session object a successful [open_resource] returned and
    [EvQuery] the line read back; [None] there means that the call raised. *)
Inductive event : Type :=
| EvResourceManager (backend : string)
| EvListResources
| EvOpen (address : string) (opened : option session)
| EvSetReadTermination (ins : session) (t : string)
| EvSetTimeout (ins : session) (ms : Z)
| EvQuery (ins : session) (command : string) (answer : option string)
| EvClose (ins : session)
| EvCloseManager.

(** The value of the attribute [instruments]: the class gives it the
    default [[]], a list; [__init__] replaces it by a dict. *)
Inductive instruments_t : Type :=
| InstrList (l : list session)
| InstrDict (d : dict session).

(** The attributes of an [RfControl] object. *)
Record RfControl : Type := mkRfControl {
  resource_mgr : option manager;
  resource_names : list string;
  instruments : instruments_t;
  att_values_allowed : dict (list string)
}.

(** The class-level defaults, seen through an object whose [__init__] has
    not assigned the attribute yet. *)
Definition class_attributes : RfControl :=
  {| resource_mgr := None;
     resource_names := [];
     instruments := InstrList [];
     att_values_allowed := [] |}.

(** The state a method runs in: the object, the outside world and the log
    of the calls made so far. *)
Record state : Type := mkState {
  self : RfControl;
  env : world;
  log : list event
}.

(** State and exception monad. *)
Definition M (A : Type) : Type := state -> result A * state.

Definition ret {A : Type} (a : A) : M A := fun st => (Ret a, st).

Definition raise {A : Type} (e : exn) : M A := fun st => (Raise e, st).

Definition bind {A B : Type} (m : M A) (k : A -> M B) : M B :=
  fun st =>
    match m st with
    | (Ret a, st') => k a st'
    | (Raise e, st') => (Raise e, st')
    end.

Notation "x <- m ;; k" := (bind m (fun x => k))
  (at level 61, m at next level, right associativity).
Notation "m ;;; k" := (bind m (fun _ => k))
  (at level 61, right associativity).

Definition get_self : M RfControl := fun st => (Ret (self st), st).

Definition set_self (f : RfControl -> RfControl) : M unit :=
  fun st => (Ret tt, {| self := f (self st); env := env st; log := log st |}).

(** A pyvisa call: run it on the world and append its entry to the log. *)
Definition call {A : Type} (op : world -> result A * world)
    (entry : result A -> event) : M A :=
  fun st =>
    let (r, w) := op (env st) in
    (r, {| self := self st; env := w; log := log st ++ [entry r] |}).

Definition returned {A : Type} (r : result A) : option A :=
  match r with
  | Ret a => Some a
  | Raise _ => None
  end.

Definition visa_ResourceManager (backend : string) : M manager :=
  call (ResourceManager backend) (fun _ => EvResourceManager backend).

Definition visa_list_resources (rm : manager) : M (list string) :=
  call (list_resources rm) (fun _ => EvListResources).

Definition visa_open_resource (rm : manager) (address : string) : M session :=
  call (open_resource rm address) (fun r => EvOpen address (returned r)).

Definition visa_set_read_termination (ins : session) (t : string) : M unit :=
  call (set_read_termination ins t) (fun _ => EvSetReadTermination ins t).

Definition visa_set_timeout (ins : session) (ms : Z) : M unit :=
  call (set_timeout ins ms) (fun _ => EvSetTimeout ins ms).

Definition visa_query (ins : session) (command : string) : M string :=
  call (query ins command) (fun r => EvQuery ins command (returned r)).

Definition visa_close (ins : session) : M unit :=
  call (close ins) (fun _ => EvClose ins).

Definition visa_close_manager (rm : manager) : M unit :=
  call (close_manager rm) (fun _ => EvCloseManager).

(** [float(s)] on a [str]. *)
Definition py_float_of_str (s : string) : M float_t :=
  match float_of_str s with
  | Some x => ret x
  | None => raise (ValueError "could not convert string to float")
  end.

(** The argument [att_value] of [set_att_value]: the docstring gives it the
    type [float], the command line passes the [str] typed by the user. *)
Inductive pyval : Type :=
| PyStr (s : string)
| PyFloat (x : float_t).

(** [float(v)] *)
Definition py_float (v : pyval) : M float_t :=
  match v with
  | PyStr s => py_float_of_str s
  | PyFloat x => ret x
  end.

(** [v in l] for a list [l] of [str]: a [float] never equals a [str]. *)
Definition py_in (v : pyval) (l : list string) : bool :=
  match v with
  | PyStr s => str_in s l
  | PyFloat _ => false
  end.

(** Access to the attribute [instruments]. *)
Definition instruments_keys : M (list string) :=
  o <- get_self;;
  match instruments o with
  | InstrDict d => ret (dict_keys d)
  | InstrList _ => raise (AttributeError "'list' object has no attribute 'keys'")
  end.

Definition instruments_values : M (list session) :=
  o <- get_self;;
  match instruments o with
  | InstrDict d => ret (dict_values d)
  | InstrList _ => raise (AttributeError "'list' object has no attribute 'values'")
  end.

Definition instruments_items : M (list (string * session)) :=
  o <- get_self;;
  match instruments o with
  | InstrDict d => ret (dict_items d)
  | InstrList _ => raise (AttributeError "'list' object has no attribute 'items'")
  end.

(** [self.instruments[name]] *)
Definition instruments_getitem (name : string) : M session :=
  o <- get_self;;
  match instruments o with
  | InstrDict d =>
      match dict_get name d with
      | Some ins => ret ins
      | None => raise (KeyError name)
      end
  | InstrList _ => raise (TypeError "list indices must be integers or slices, not str")
  end.

(** [self.att_values_allowed[name]] *)
Definition att_values_allowed_getitem (name : string) : M (list string) :=
  o <- get_self;;
  match dict_get name (att_values_allowed o) with
  | Some l => ret l
  | None => raise (KeyError name)
  end.

(** ** [RfControl.__init__] (line 18) *)

Definition att_name (i : nat) : string := "att" ++ fmt_d i.

(** The dict comprehension of line 36: for each [ins] of
    [self.resource_names], in order, the key
    ['att%d' % self.resource_names.index(ins)] is computed, the resource is
    opened, and the pair is stored in the dict under construction. *)
Fixpoint open_instruments (rm : manager) (names todo : list string)
    (acc : dict session) : M (dict session) :=
  match todo with
  | [] => ret acc
  | ins :: rest =>
      match list_index ins names with
      | None => raise (ValueError "value is not in list")
      | Some i =>
          unit <- visa_open_resource rm ins;;
          open_instruments rm names rest (dict_set (att_name i) unit acc)
      end
  end.

(** The loop of line 40. *)
Fixpoint apply_settings (units : list session) (line_termination : string)
    (timeout : Z) : M unit :=
  match units with
  | [] => ret tt
  | unit :: rest =>
      visa_set_read_termination unit line_termination;;;
      visa_set_timeout unit timeout;;;
      apply_settings rest line_termination timeout
  end.

(** The dict comprehension of line 45. *)
Fixpoint query_allowed (items : list (string * session))
    (acc : dict (list string)) : M (dict (list string)) :=
  match items with
  | [] => ret acc
  | (name, ins) :: rest =>
      table <- visa_query ins "ATT:ATTTabGet?";;
      query_allowed rest (dict_set name (split_on "," table) acc)
  end.

Definition no_acm_message : string :=
  "No ACM resources found, please check your devices connection".

Definition init (timeout : Z) (line_termination : string) : M unit :=
  rm <- visa_ResourceManager "@py";;
  set_self (fun o => {| resource_mgr := Some rm;
                        resource_names := resource_names o;
                        instruments := instruments o;
                        att_values_allowed := att_values_allowed o |});;;
  found <- visa_list_resources rm;;
  set_self (fun o => {| resource_mgr := resource_mgr o;
                        resource_names := get_acm_ctrl_list found;
                        instruments := instruments o;
                        att_values_allowed := att_values_allowed o |});;;
  o <- get_self;;
  match resource_names o with
  | [] => raise (NameError no_acm_message)
  | _ :: _ =>
      opened <- open_instruments rm (resource_names o) (resource_names o) [];;
      set_self (fun o => {| resource_mgr := resource_mgr o;
                            resource_names := resource_names o;
                            instruments := InstrDict opened;
                            att_values_allowed := att_values_allowed o |});;;
      units <- instruments_values;;
      apply_settings units line_termination timeout;;;
      items <- instruments_items;;
      allowed <- query_allowed items [];;
      set_self (fun o => {| resource_mgr := resource_mgr o;
                            resource_names := resource_names o;
                            instruments := instruments o;
                            att_values_allowed := allowed |})
  end.

(** [RfControl(timeout, line_termination)]: a new object starts from the
    class attributes and [__init__] runs on it. *)
Definition construct (timeout : Z) (line_termination : string)
    (w : world) (l : list event) : result unit * state :=
  init timeout line_termination
    {| self := class_attributes; env := w; log := l |}.

(** ** The public methods *)

Definition get_instrument_names : M (list string) :=
  instruments_keys.

Definition get_available_gain_values : M (dict (list string)) :=
  o <- get_self;;
  ret (att_values_allowed o).

(** The triple [(status, att_val, msg)] every control method returns. *)
Definition triple : Type := bool * option float_t * string.

Definition get_att_value (instrument_name : string) : M triple :=
  let status := false in
  let att_val := @None float_t in
  let msg := "" in
  names <- instruments_keys;;
  if str_in instrument_name names then
    let status := true in
    ins <- instruments_getitem instrument_name;;
    answer <- visa_query ins "ATT:ATTGetCurVal?";;
    x <- py_float_of_str answer;;
    let att_val := Some x in
    ret (status, att_val, msg)
  else
    let msg := "Instrument name not found" in
    ret (status, att_val, msg).

Definition set_att_value (instrument_name : string) (att_value : pyval)
    : M triple :=
  let status := false in
  let att_val := @None float_t in
  let msg := "" in
  names <- instruments_keys;;
  if str_in instrument_name names then
    allowed <- att_values_allowed_getitem instrument_name;;
    if py_in att_value allowed then
      ins <- instruments_getitem instrument_name;;
      requested <- py_float att_value;;
      answer <- visa_query ins ("ATT:ATTSet? " ++ format_f requested);;
      x <- py_float_of_str answer;;
      let att_val := Some x in
      let status := true in
      ret (status, att_val, msg)
    else
      let msg := "Unsupported attenuation value" in
      ret (status, att_val, msg)
  else
    let msg := "Instrument name not found" in
    ret (status, att_val, msg).

Definition set_step_up (instrument_name : string) : M triple :=
  let status := false in
  let att_val := @None float_t in
  let msg := "" in
  names <- instruments_keys;;
  if str_in instrument_name names then
    ins <- instruments_getitem instrument_name;;
    answer <- visa_query ins "ATT:ATTSetUp?";;
    x <- py_float_of_str answer;;
    let att_val := Some x in
    let status := true in
    ret (status, att_val, msg)
  else
    let msg := "Unsupported attenuation value" in
    ret (status, att_val, msg).

Definition set_step_down (instrument_name : string) : M triple :=
  let status := false in
  let att_val := @None float_t in
  let msg := "" in
  names <- instruments_keys;;
  if str_in instrument_name names then
    ins <- instruments_getitem instrument_name;;
    answer <- visa_query ins "ATT:ATTSetDown?";;
    x <- py_float_of_str answer;;
    let att_val := Some x in
    let status := true in
    ret (status, att_val, msg)
  else
    let msg := "Unsupported attenuation value" in
    ret (status, att_val, msg).

(** ** [RfControl.__del__] (line 148) *)

Fixpoint close_all (units : list session) : M unit :=
  match units with
  | [] => ret tt
  | ins :: rest => visa_close ins;;; close_all rest
  end.

Definition del : M unit :=
  units <- instruments_values;;
  close_all units;;;
  o <- get_self;;
  match resource_mgr o with
  | Some rm => visa_close_manager rm
  | None => raise (AttributeError "'NoneType' object has no attribute 'close'")
  end.

(** The four control methods under one name. *)
Inductive control_op : Type :=
| GetAttValue
| SetAttValue (att_value : pyval)
| SetStepUp
| SetStepDown.

Definition run_op (op : control_op) (instrument_name : string) : M triple :=
  match op with
  | GetAttValue => get_att_value instrument_name
  | SetAttValue v => set_att_value instrument_name v
  | SetStepUp => set_step_up instrument_name
  | SetStepDown => set_step_down instrument_name
  end.

End Program.

Arguments PyStr {FO} s.
Arguments PyFloat {FO} x.

(** ** A simulated bench

    An instance of the environment that computes: step attenuators behind
    a pyvisa that hands out numbered sessions.  It serves for concrete
    runs of the program and as the instrument double of the round trip
    property. *)

Module Bench.

(** VISA status codes. *)
Definition VI_ERROR_INV_OBJECT : Z := (-1073807346)%Z.
Definition VI_ERROR_RSRC_NFOUND : Z := (-1073807343)%Z.
Definition VI_ERROR_RSRC_BUSY : Z := (-1073807246)%Z.

(** The numbers of the bench are the whole non-negative decibel values:
    [n] stands for the float [n.0].  A text is read as such a number when
    it is written [d+] or [d+.0*], as [5], [10] or [5.000000]; the bench
    takes any other text as not a number.  ['{:f}'.format] prints six
    decimals. *)
Definition all_zeros (s : string) : bool :=
  forallb (Ascii.eqb "0"%char) (list_ascii_of_string s).

Definition digits (s : string) : option nat :=
  match s with
  | EmptyString => None
  | _ => option_map Nat.of_uint (NilEmpty.uint_of_string s)
  end.

Definition whole_of_str (s : string) : option nat :=
  match split_on "."%char s with
  | [int_part] => digits int_part
  | [int_part; frac_part] =>
      if all_zeros frac_part then digits int_part else None
  | _ => None
  end.

Definition whole_format (n : nat) : string := fmt_d n ++ ".000000".

#[export] Instance whole_floats : FloatOps :=
  {| float_t := nat;
     float_of_str := whole_of_str;
     format_f := whole_format |}.

(** A step attenuator: the table of its values, in the text form it
    reports them, and the position of the current value in the table.
    [opens] tells whether its port can be opened, [answers] whether it
    replies to commands. *)
Record attenuator : Type := mkAttenuator {
  address : string;
  table : list string;
  position : nat;
  opens : bool;
  answers : bool
}.

Definition current (a : attenuator) : string :=
  nth (position a) (table a) "".

Definition move (a : attenuator) (p : nat) : attenuator :=
  {| address := address a;
     table := table a;
     position := p;
     opens := opens a;
     answers := answers a |}.

Definition step_up_position (a : attenuator) : nat :=
  if Nat.ltb (S (position a)) (length (table a)) then S (position a)
  else position a.

Definition step_down_position (a : attenuator) : nat :=
  Nat.pred (position a).

(** Position of the first table entry worth [x]. *)
Fixpoint find_value (x : nat) (tab : list string) : option nat :=
  match tab with
  | [] => None
  | t :: rest =>
      match whole_of_str t with
      | Some y => if Nat.eqb x y then Some 0 else option_map S (find_value x rest)
      | None => option_map S (find_value x rest)
      end
  end.

(** The reply of an attenuator to one command line and its state
    afterwards; no reply to a command it does not know.  The step commands
    stop at the ends of the table. *)
Definition command (a : attenuator) (cmd : string) : option string * attenuator :=
  if String.eqb cmd "ATT:ATTTabGet?" then
    (Some (String.concat "," (table a)), a)
  else if String.eqb cmd "ATT:ATTGetCurVal?" then
    (Some (current a), a)
  else if String.eqb cmd "ATT:ATTSetUp?" then
    let a' := move a (step_up_position a) in (Some (current a'), a')
  else if String.eqb cmd "ATT:ATTSetDown?" then
    let a' := move a (step_down_position a) in (Some (current a'), a')
  else if String.prefix "ATT:ATTSet? " cmd then
    match whole_of_str (substring 12 (Nat.sub (String.length cmd) 12) cmd) with
    | Some x =>
        match find_value x (table a) with
        | Some p => let a' := move a p in (Some (current a'), a')
        | None => (Some (current a), a)
        end
    | None => (Some (current a), a)
    end
  else (None, a).

(** The bench: what the resource listing reports, the attenuators, the
    open sessions with the address each was opened on, and the number of
    the next session. *)
Record bench : Type := mkBench {
  listed : list string;
  rack : list attenuator;
  sessions : list (nat * string);
  next_session : nat
}.

Fixpoint find_unit (addr : string) (r : list attenuator) : option attenuator :=
  match r with
  | [] => None
  | a :: rest => if String.eqb addr (address a) then Some a else find_unit addr rest
  end.

Fixpoint put_unit (a' : attenuator) (r : list attenuator) : list attenuator :=
  match r with
  | [] => []
  | a :: rest =>
      if String.eqb (address a') (address a) then a' :: rest
      else a :: put_unit a' rest
  end.

Fixpoint session_address (s : nat) (l : list (nat * string)) : option string :=
  match l with
  | [] => None
  | (s', addr) :: rest => if Nat.eqb s s' then Some addr else session_address s rest
  end.

Definition with_rack (w : bench) (r : list attenuator) : bench :=
  {| listed := listed w; rack := r; sessions := sessions w;
     next_session := next_session w |}.

Definition with_sessions (w : bench) (l : list (nat * string)) (n : nat) : bench :=
  {| listed := listed w; rack := rack w; sessions := l; next_session := n |}.

Definition bench_open (addr : string) (w : bench) : result nat * bench :=
  match find_unit addr (rack w) with
  | None => (Raise (VisaIOError VI_ERROR_RSRC_NFOUND), w)
  | Some a =>
      if opens a then
        (Ret (next_session w),
         with_sessions w (sessions w ++ [(next_session w, addr)])%list
           (S (next_session w)))
      else (Raise (VisaIOError VI_ERROR_RSRC_BUSY), w)
  end.

Definition bench_query (s : nat) (cmd : string) (w : bench) : result string * bench :=
  match session_address s (sessions w) with
  | None => (Raise (VisaIOError VI_ERROR_INV_OBJECT), w)
  | Some addr =>
      match find_unit addr (rack w) with
      | None => (Raise (VisaIOError VI_ERROR_TMO), w)
      | Some a =>
          if answers a then
            match command a cmd with
            | (Some line, a') => (Ret line, with_rack w (put_unit a' (rack w)))
            | (None, a') => (Raise (VisaIOError VI_ERROR_TMO), with_rack w (put_unit a' (rack w)))
            end
          else (Raise (VisaIOError VI_ERROR_TMO), w)
      end
  end.

Definition bench_close (s : nat) (w : bench) : result unit * bench :=
  (Ret tt,
   with_sessions w
     (filter (fun e => negb (Nat.eqb (fst e) s)) (sessions w))
     (next_session w)).

#[export] Instance bench_visa : Visa :=
  {| world := bench;
     manager := unit;
     session := nat;
     ResourceManager := fun _ w => (Ret tt, w);
     list_resources := fun _ w => (Ret (listed w), w);
     open_resource := fun _ addr w => bench_open addr w;
     set_read_termination := fun _ _ w => (Ret tt, w);
     set_timeout := fun _ _ w => (Ret tt, w);
     query := bench_query;
     close := bench_close;
     close_manager := fun _ w => (Ret tt, with_sessions w [] (next_session w)) |}.

(** The unit at [addr] stops answering (its cable is pulled). *)
Definition silence (addr : string) (w : bench) : bench :=
  match find_unit addr (rack w) with
  | Some a =>
      with_rack w
        (put_unit {| address := address a; table := table a;
                     position := position a; opens := opens a;
                     answers := false |} (rack w))
  | None => w
  end.

Definition unit_at (addr : string) (tab : list string) (can_open : bool)
    : attenuator :=
  {| address := addr; table := tab; position := 0;
     opens := can_open; answers := true |}.

Definition acm0 : string := "ASRL/dev/ttyACM0::INSTR".
Definition acm1 : string := "ASRL/dev/ttyACM1::INSTR".
Definition ttyS0 : string := "ASRL/dev/ttyS0::INSTR".

(** Two attenuators with the values 0, 5 and 10 dB next to a port that is
    not an ACM device. *)
Definition two_units : bench :=
  {| listed := [ttyS0; acm0; acm1];
     rack := [unit_at acm0 ["0"; "5"; "10"] true;
              unit_at acm1 ["0"; "5"; "10"] true];
     sessions := [];
     next_session := 0 |}.

(** The same bench when the port of the second attenuator cannot be
    opened. *)
Definition second_busy : bench :=
  {| listed := [ttyS0; acm0; acm1];
     rack := [unit_at acm0 ["0"; "5"; "10"] true;
              unit_at acm1 ["0"; "5"; "10"] false];
     sessions := [];
     next_session := 0 |}.

(** A listing that reports one address twice. *)
Definition listed_twice : bench :=
  {| listed := [acm0; acm0];
     rack := [unit_at acm0 ["0"; "5"; "10"] true];
     sessions := [];
     next_session := 0 |}.

(** No ACM device attached. *)
Definition no_units : bench :=
  {| listed := [ttyS0; "TCPIP::192.168.0.7::INSTR"];
     rack := [];
     sessions := [];
     next_session := 0 |}.

(** An attenuator whose port opens but which never answers. *)
Definition second_mute : bench :=
  {| listed := [ttyS0; acm0; acm1];
     rack := [unit_at acm0 ["0"; "5"; "10"] true;
              {| address := acm1; table := ["0"; "5"; "10"]; position := 0;
                 opens := true; answers := false |}];
     sessions := [];
     next_session := 0 |}.

(** One attenuator whose table ends with a word instead of a number. *)
Definition worded_table : bench :=
  {| listed := [acm0];
     rack := [unit_at acm0 ["0"; "full"] true];
     sessions := [];
     next_session := 0 |}.

(** [RfControl()] on a bench, with an empty log. *)
Definition start (w : bench) : result unit * state :=
  construct default_timeout default_line_termination w [].

(** The state after [RfControl()] on a bench. *)
Definition started (w : bench) : state := snd (start w).

(** The state reached when, after [RfControl()] on the two units, the
    first one stops answering. *)
Definition first_unplugged : state :=
  {| self := self (started two_units);
     env := silence acm0 (env (started two_units));
     log := log (started two_units) |}.

(** The dicts of the object made on the two units. *)
Definition two_instruments : dict nat := [("att0", 0); ("att1", 1)].
Definition two_allowed : dict (list string) :=
  [("att0", ["0"; "5"; "10"]); ("att1", ["0"; "5"; "10"])].

(** In [st], the session [s] stored under [name] is open on the unit [a]
    at the address [addr]. *)
Definition plugged (st : state) (name : string) (s : nat) (addr : string)
    (a : attenuator) : Prop :=
  (exists d, instruments (self st) = InstrDict d /\ dict_get name d = Some s) /\
  session_address s (sessions (env st)) = Some addr /\
  find_unit addr (rack (env st)) = Some a.

End Bench.

(** ** Vocabulary of the properties *)

(** [needle] occurs in [s]. *)
Definition has_substring (needle s : string) : Prop :=
  exists before after, s = (before ++ needle ++ after)%string.

(** [Subseq k l]: [k] is [l] with some elements left out, the others in
    their original order. *)
Inductive Subseq {A : Type} : list A -> list A -> Prop :=
| Subseq_nil : Subseq [] []
| Subseq_keep : forall x k l, Subseq k l -> Subseq (x :: k) (x :: l)
| Subseq_drop : forall x k l, Subseq k l -> Subseq k (x :: l).

Section Vocabulary.

Context {FO : FloatOps} {V : Visa}.

(** The fields of a returned triple. *)
Definition status_of (t : triple) : bool := fst (fst t).
Definition value_of (t : triple) : option float_t := snd (fst t).
Definition message_of (t : triple) : string := snd t.

(** The object of [st] is a constructed registry: [instruments] is the
    dict [d] and every name of [d] has its cached list of allowed values
    in [a]. *)
Definition registry (st : state) (d : dict session) (a : dict (list string))
    : Prop :=
  instruments (self st) = InstrDict d /\
  att_values_allowed (self st) = a /\
  forall name, dict_mem name d = true -> dict_mem name a = true.

(** Log entries of calls that close something. *)
Definition is_close (e : event) : bool :=
  match e with
  | EvClose _ | EvCloseManager => true
  | _ => false
  end.

(** Log entries of an [open_resource] or a [query] that raised. *)
Definition is_failed_io (e : event) : bool :=
  match e with
  | EvOpen _ None | EvQuery _ _ None => true
  | _ => false
  end.

(** Log entries of an [open_resource], successful or not. *)
Definition is_open (e : event) : bool :=
  match e with
  | EvOpen _ _ => true
  | _ => false
  end.

(** The sessions opened in a log, with their addresses, in order. *)
Fixpoint opened_sessions (l : list event) : list (string * session) :=
  match l with
  | [] => []
  | EvOpen address (Some ins) :: rest => (address, ins) :: opened_sessions rest
  | _ :: rest => opened_sessions rest
  end.

(** The state after [ins.query(command)] was called in [st]: the world
    has moved and the log has one more entry; the object is the same. *)
Definition after_query (st : state) (ins : session) (command : string) : state :=
  {| self := self st;
     env := snd (query ins command (env st));
     log := log st ++
       [EvQuery ins command (returned (fst (query ins command (env st))))] |}.

(** [float(v)] as a partial function. *)
Definition float_of_pyval (v : pyval) : option float_t :=
  match v with
  | PyStr s => float_of_str s
  | PyFloat x => Some x
  end.

Definition not_a_float : exn :=
  ValueError "could not convert string to float".

(** What becomes of the outcome of a [query] whose answer is passed
    through [float]: an exception goes on as it is, a text that is not a
    number raises [ValueError], a number makes a success triple. *)
Definition answer_triple (r : result string) : result triple :=
  match r with
  | Raise e => Raise e
  | Ret answer =>
      match float_of_str answer with
      | Some x => Ret (true, Some x, "")
      | None => Raise not_a_float
      end
  end.

(** The command a control method sends once its checks have passed;
    [None] when [float(att_value)] fails. *)
Definition command_of (op : control_op) : option string :=
  match op with
  | GetAttValue => Some "ATT:ATTGetCurVal?"
  | SetAttValue v =>
      option_map (fun x => ("ATT:ATTSet? " ++ format_f x)%string)
        (float_of_pyval v)
  | SetStepUp => Some "ATT:ATTSetUp?"
  | SetStepDown => Some "ATT:ATTSetDown?"
  end.

(** The triple a control method returns when its checks reject the call:
    unknown name, or for [set_att_value] a value that is not allowed. *)
Definition unknown_name_triple (op : control_op) : triple :=
  match op with
  | GetAttValue | SetAttValue _ => (false, None, "Instrument name not found")
  | SetStepUp | SetStepDown => (false, None, "Unsupported attenuation value")
  end.

Definition unsupported_triple : triple :=
  (false, None, "Unsupported attenuation value").

(** The second check, which only [set_att_value] makes. *)
Definition value_accepted (op : control_op) (allowed : list string) : bool :=
  match op with
  | SetAttValue v => py_in v allowed
  | _ => true
  end.

(** [m] only appends to the log, entries that satisfy [P], and lets no
    failed [open_resource] or [query] pass: if one is logged, [m] has
    raised. *)
Definition tracks {A : Type} (P : event -> bool) (m : M A) : Prop :=
  forall st r st',
    m st = (r, st') ->
    exists new,
      log st' = log st ++ new /\
      forallb P new = true /\
      (existsb is_failed_io new = true -> returned r = None).

(** [m] does not assign to the attributes of the object. *)
Definition keeps_self {A : Type} (m : M A) : Prop :=
  forall st r st', m st = (r, st') -> self st' = self st.

End Vocabulary.

(** ** The script (rfcontrol.py, line 166)

    The part run under [if __name__ == '__main__']: it reads the action
    from the command line, makes an [RfControl] and prints what the chosen
    method returns. *)

Section Script.

Context {FO : FloatOps} {V : Visa}.

(** What [print] is given: the list of names, the dict of allowed values
    or the triple of a control method. *)
Inductive printed : Type :=
| PrintedNames (names : list string)
| PrintedAllowed (allowed : dict (list string))
| PrintedTriple (t : triple).

(** What the script does besides its pyvisa calls: [print(v)] and
    [time.sleep(seconds)], in order. *)
Inductive output : Type :=
| Printed (v : printed)
| Slept (seconds : Z).

(** The exceptions the script can end with: [IndexError] of [opts[i]], or
    one that comes out of [RfControl]. *)
Inductive script_exn : Type :=
| IndexError (msg : string)
| Uncaught (e : exn).

Inductive outcome (A : Type) : Type :=
| Done (a : A)
| Failed (e : script_exn).
Arguments Done {A} a.
Arguments Failed {A} e.

(** The state of the running script: the state of the controller and what
    was written and slept so far. *)
Record process : Type := mkProcess {
  machine : state;
  stdout : list output
}.

Definition Script (A : Type) : Type := process -> outcome A * process.

Definition done {A : Type} (a : A) : Script A := fun p => (Done a, p).

Definition fail {A : Type} (e : script_exn) : Script A := fun p => (Failed e, p).

Definition and_then {A B : Type} (m : Script A) (k : A -> Script B) : Script B :=
  fun p =>
    match m p with
    | (Done a, p') => k a p'
    | (Failed e, p') => (Failed e, p')
    end.

Notation "x <~ m ;; k" := (and_then m (fun x => k))
  (at level 61, m at next level, right associativity).
Notation "m ;;; k" := (and_then m (fun _ => k))
  (at level 61, right associativity).

(** A method of the controller called from the script. *)
Definition lift {A : Type} (m : M A) : Script A :=
  fun p =>
    match m (machine p) with
    | (Ret a, st) => (Done a, {| machine := st; stdout := stdout p |})
    | (Raise e, st) => (Failed (Uncaught e), {| machine := st; stdout := stdout p |})
    end.

Definition emit (o : output) : Script unit :=
  fun p => (Done tt, {| machine := machine p; stdout := stdout p ++ [o] |}).

(** [print(v)] *)
Definition print (v : printed) : Script unit := emit (Printed v).

(** [time.sleep(seconds)] *)
Definition sleep (seconds : Z) : Script unit := emit (Slept seconds).

(** [opts[i]] *)
Definition item (opts : list string) (i : nat) : Script string :=
  match nth_error opts i with
  | Some x => done x
  | None => fail (IndexError "list index out of range")
  end.

(** [ctl = RfControl()]: a new object, with the default arguments. *)
Definition new_RfControl : Script unit :=
  fun p =>
    match construct default_timeout default_line_termination
            (env (machine p)) (log (machine p)) with
    | (Ret _, st) => (Done tt, {| machine := st; stdout := stdout p |})
    | (Raise e, st) => (Failed (Uncaught e), {| machine := st; stdout := stdout p |})
    end.

(** The loop of the action [test] (line 189). *)
Fixpoint sweep (opts : list string) (vals : list string) : Script unit :=
  match vals with
  | [] => done tt
  | val :: rest =>
      name <~ item opts 1;;
      t <~ lift (set_att_value name (PyStr val));;
      print (PrintedTriple t);;;
      sleep 1;;;
      sweep opts rest
  end.

(** The script, given [sys.argv]: the statements of lines 168 to 191.
    What the interpreter does with the object when it exits ([__del__]) is
    not part of it. *)
Definition main (argv : list string) : Script unit :=
  let opts := tl argv in
  action <~ item opts 0;;
  new_RfControl;;;
  if String.eqb action "names" then
    names <~ lift get_instrument_names;;
    print (PrintedNames names)
  else if String.eqb action "get_val" then
    name <~ item opts 1;;
    t <~ lift (get_att_value name);;
    print (PrintedTriple t)
  else if String.eqb action "allow" then
    a <~ lift get_available_gain_values;;
    print (PrintedAllowed a)
  else if String.eqb action "set" then
    name <~ item opts 1;;
    value <~ item opts 2;;
    t <~ lift (set_att_value name (PyStr value));;
    print (PrintedTriple t)
  else if String.eqb action "get" then
    name <~ item opts 1;;
    t <~ lift (get_att_value name);;
    print (PrintedTriple t)
  else if String.eqb action "up" then
    name <~ item opts 1;;
    t <~ lift (set_step_up name);;
    print (PrintedTriple t)
  else if String.eqb action "down" then
    name <~ item opts 1;;
    t <~ lift (set_step_down name);;
    print (PrintedTriple t)
  else if String.eqb action "test" then
    a <~ lift get_available_gain_values;;
    name <~ item opts 1;;
    match dict_get name a with
    | Some vals => sweep opts vals
    | None => fail (Uncaught (KeyError name))
    end
  else done tt.

(** The script starts with no controller, nothing logged and nothing
    written. *)
Definition fresh_process (w : world) : process :=
  {| machine := {| self := class_attributes; env := w; log := [] |};
     stdout := [] |}.

(** What the loop of [test] writes and sleeps for the values [xs] echoed
    by the instrument: a success triple, then one second, per value. *)
Definition sweep_lines (xs : list float_t) : list output :=
  flat_map (fun x => [Printed (PrintedTriple (true, Some x, "")); Slept 1%Z]) xs.

(** The names the script knows as its first argument. *)
Definition actions : list string :=
  ["names"; "get_val"; "allow"; "set"; "get"; "up"; "down"; "test"].

(** ** Further vocabulary *)

(** A caller making control calls one after the other, going on after a
    call that raised; the state at the end. *)
Fixpoint run_ops (calls : list (control_op * string)) (st : state) : state :=
  match calls with
  | [] => st
  | (op, name) :: rest => run_ops rest (snd (run_op op name st))
  end.

(** The log entries of successful [open_resource] calls, of the settings
    of line 40, of answered table queries and of [close] calls. *)
Definition open_entries (pairs : list (string * session)) : list event :=
  map (fun p => EvOpen (fst p) (Some (snd p))) pairs.

Definition settings_entries (units : list session) (line_termination : string)
    (timeout : Z) : list event :=
  flat_map (fun unit => [EvSetReadTermination unit line_termination;
                         EvSetTimeout unit timeout]) units.

Definition table_entries (pairs : list (session * string)) : list event :=
  map (fun p => EvQuery (fst p) "ATT:ATTTabGet?" (Some (snd p))) pairs.

Definition close_entries (units : list session) : list event :=
  map EvClose units ++ [EvCloseManager].

(** The assignments [self.instruments = d] and
    [self.att_values_allowed = a] of [__init__]. *)
Definition store_instruments (st : state) (d : dict session) : state :=
  {| self := {| resource_mgr := resource_mgr (self st);
                resource_names := resource_names (self st);
                instruments := InstrDict d;
                att_values_allowed := att_values_allowed (self st) |};
     env := env st;
     log := log st |}.

Definition store_allowed (st : state) (a : dict (list string)) : state :=
  {| self := {| resource_mgr := resource_mgr (self st);
                resource_names := resource_names (self st);
                instruments := instruments (self st);
                att_values_allowed := a |};
     env := env st;
     log := log st |}.

(** The state of a new object once the resource manager [rm] is made and
    the listing has returned [found]. *)
Definition after_listing (rm : manager) (found : list string) (w : world)
    (l : list event) : state :=
  {| self := {| resource_mgr := Some rm;
                resource_names := get_acm_ctrl_list found;
                instruments := InstrList [];
                att_values_allowed := [] |};
     env := w;
     log := (l ++ [EvResourceManager "@py"]) ++ [EvListResources] |}.

(** Log entries of [query] calls. *)
Definition is_query (e : event) : bool :=
  match e with
  | EvQuery _ _ _ => true
  | _ => false
  end.

(** The addresses of the [open_resource] calls of a log, failed or not. *)
Fixpoint open_addresses (l : list event) : list string :=
  match l with
  | [] => []
  | EvOpen address _ :: rest => address :: open_addresses rest
  | _ :: rest => open_addresses rest
  end.

End Script.

Arguments Done {A} a.
Arguments Failed {A} e.

(** * Properties *)

(** ** Built-ins *)

Lemma prefix_has (p s : string) :
  String.prefix p s = true <-> exists rest, s = (p ++ rest)%string.
Proof.
  revert s. induction p as [|c p IH]; intros s.
  - split; [intros _; exists s; reflexivity | destruct s; reflexivity].
  - destruct s as [|c' s]; simpl.
    + split; [discriminate | intros [r Hr]; discriminate].
    + destruct (Ascii.ascii_dec c c') as [->|Hne].
      * rewrite IH. split; intros [r Hr]; exists r; congruence.
      * split; [discriminate | intros [r Hr]; congruence].
Qed.

Lemma str_contains_spec (needle hay : string) :
  str_contains needle hay = true <-> has_substring needle hay.
Proof.
  unfold has_substring. induction hay as [|c hay IH].
  - change (str_contains needle "")
      with (if String.prefix needle "" then true else false).
    destruct (String.prefix needle "") eqn:Hp.
    + apply prefix_has in Hp. destruct Hp as [r Hr].
      split; [intros _; exists "", r; exact Hr | reflexivity].
    + split; [discriminate|]. intros [b [a H]].
      destruct b; simpl in H; [|discriminate].
      assert (String.prefix needle "" = true) by (apply prefix_has; eauto).
      congruence.
  - change (str_contains needle (String c hay))
      with (if String.prefix needle (String c hay) then true
            else str_contains needle hay).
    destruct (String.prefix needle (String c hay)) eqn:Hp.
    + apply prefix_has in Hp. destruct Hp as [r Hr].
      split; [intros _; exists "", r; exact Hr | reflexivity].
    + rewrite IH. split.
      * intros [b [a H]]. exists (String c b), a. simpl. congruence.
      * intros [b [a H]]. destruct b as [|c' b]; simpl in H.
        -- assert (String.prefix needle (String c hay) = true)
             by (apply prefix_has; eauto).
           congruence.
        -- injection H as _ H. eauto.
Qed.

Lemma str_in_spec (x : string) (l : list string) :
  str_in x l = true <-> In x l.
Proof.
  unfold str_in. rewrite existsb_exists. split.
  - intros [y [Hy He]]. apply String.eqb_eq in He. subst. exact Hy.
  - intros H. exists x. split; [exact H | apply String.eqb_refl].
Qed.

Lemma dict_mem_get {V : Type} (k : string) (d : dict V) :
  dict_mem k d = true <-> exists v, dict_get k d = Some v.
Proof.
  unfold dict_mem, dict_keys, str_in.
  induction d as [|[k' v'] d IH]; simpl.
  - split; [discriminate | intros [v H]; discriminate].
  - destruct (String.eqb k k'); simpl.
    + split; eauto.
    + exact IH.
Qed.

Lemma dict_mem_false_get {V : Type} (k : string) (d : dict V) :
  dict_mem k d = false <-> dict_get k d = None.
Proof.
  destruct (dict_get k d) eqn:Hg.
  - assert (dict_mem k d = true) by (apply dict_mem_get; eauto).
    split; congruence.
  - destruct (dict_mem k d) eqn:Hm; [|tauto].
    apply dict_mem_get in Hm. destruct Hm as [v Hv]. congruence.
Qed.

(** ** [get_acm_ctrl_list] *)

Lemma get_acm_ctrl_list_subseq (l : list string) :
  Subseq (get_acm_ctrl_list l) l.
Proof.
  unfold get_acm_ctrl_list. induction l as [|x l IH]; simpl.
  - constructor.
  - destruct (str_contains "ACM" x); constructor; exact IH.
Qed.

Lemma get_acm_ctrl_list_count (l : list string) (x : string) :
  has_substring "ACM" x ->
  count_occ string_dec (get_acm_ctrl_list l) x = count_occ string_dec l x.
Proof.
  intros Hx. apply str_contains_spec in Hx.
  unfold get_acm_ctrl_list. induction l as [|y l IH]; simpl; [reflexivity|].
  destruct (string_dec y x) as [->|Hne].
  - rewrite Hx. simpl. destruct (string_dec x x); congruence.
  - destruct (str_contains "ACM" y); simpl; [|exact IH].
    destruct (string_dec y x); congruence.
Qed.

(** C7: [get_acm_ctrl_list] is a pure function of its argument; its result
    is a subsequence of the input (original order kept), holds only
    addresses in which the text ACM occurs, and holds each such address of
    the input as often as the input does. *)
Theorem get_acm_ctrl_list_exact (interfaces_list : list string) :
  Subseq (get_acm_ctrl_list interfaces_list) interfaces_list /\
  Forall (has_substring "ACM") (get_acm_ctrl_list interfaces_list) /\
  (forall x, has_substring "ACM" x ->
     count_occ string_dec (get_acm_ctrl_list interfaces_list) x =
     count_occ string_dec interfaces_list x) /\
  (forall l1 l2, get_acm_ctrl_list (l1 ++ l2) =
     get_acm_ctrl_list l1 ++ get_acm_ctrl_list l2).
Proof.
  split; [apply get_acm_ctrl_list_subseq|].
  split.
  - unfold get_acm_ctrl_list. apply Forall_forall. intros x Hx.
    apply filter_In in Hx. apply str_contains_spec. tauto.
  - split; [intros x; apply get_acm_ctrl_list_count|].
    intros l1 l2. unfold get_acm_ctrl_list. apply filter_app.
Qed.

(** ** The control methods *)

Section Control.

Context {FO : FloatOps} {V : Visa}.

Lemma instruments_keys_run (st : state) (d : dict session) :
  instruments (self st) = InstrDict d ->
  instruments_keys st = (Ret (dict_keys d), st).
Proof.
  intros Hd. unfold instruments_keys, bind, get_self. rewrite Hd. reflexivity.
Qed.

Lemma instruments_getitem_run (st : state) (d : dict session) (name : string) :
  instruments (self st) = InstrDict d ->
  instruments_getitem name st =
    match dict_get name d with
    | Some ins => (Ret ins, st)
    | None => (Raise (KeyError name), st)
    end.
Proof.
  intros Hd. unfold instruments_getitem, bind, get_self. rewrite Hd.
  destruct (dict_get name d); reflexivity.
Qed.

Lemma att_values_allowed_getitem_run (st : state) (name : string) :
  att_values_allowed_getitem name st =
    match dict_get name (att_values_allowed (self st)) with
    | Some l => (Ret l, st)
    | None => (Raise (KeyError name), st)
    end.
Proof.
  unfold att_values_allowed_getitem, bind, get_self.
  destruct (dict_get name (att_values_allowed (self st))); reflexivity.
Qed.

Lemma visa_query_run (st : state) (ins : session) (command : string) :
  visa_query ins command st =
    (fst (query ins command (env st)), after_query st ins command).
Proof.
  unfold visa_query, call, after_query.
  destruct (query ins command (env st)); reflexivity.
Qed.

(** The tail shared by the four methods: send [command], pass the answer
    through [float], return the success triple. *)
Lemma exchange_run (st : state) (ins : session) (command : string) :
  bind (visa_query ins command)
    (fun answer => bind (py_float_of_str answer)
       (fun x => ret (true, Some x, ""))) st =
  (answer_triple (fst (query ins command (env st))),
   after_query st ins command).
Proof.
  unfold bind at 1. rewrite visa_query_run.
  destruct (fst (query ins command (env st))) as [answer|e]; [|reflexivity].
  unfold bind, py_float_of_str, answer_triple, ret, raise.
  destruct (float_of_str answer); reflexivity.
Qed.

Lemma py_float_run (v : pyval) (st : state) :
  py_float v st =
    match float_of_pyval v with
    | Some x => (Ret x, st)
    | None => (Raise not_a_float, st)
    end.
Proof.
  destruct v as [s|x]; [|reflexivity].
  unfold py_float, py_float_of_str, float_of_pyval.
  destruct (float_of_str s); reflexivity.
Qed.

(** The complete behaviour of the control methods on a constructed
    registry. *)
Lemma run_op_registry (op : control_op) (name : string) (st : state)
    (d : dict session) (a : dict (list string)) :
  registry st d a ->
  run_op op name st =
    match dict_get name d, dict_get name a with
    | None, _ => (Ret (unknown_name_triple op), st)
    | Some ins, Some allowed =>
        if value_accepted op allowed then
          match command_of op with
          | Some command =>
              (answer_triple (fst (query ins command (env st))),
               after_query st ins command)
          | None => (Raise not_a_float, st)
          end
        else (Ret unsupported_triple, st)
    | Some ins, None => (Raise (KeyError name), st)
    end.
Proof.
  intros [Hd [Ha Hkeys]].
  assert (Hmem : str_in name (dict_keys d) = dict_mem name d) by reflexivity.
  destruct (dict_get name d) as [ins|] eqn:Hins.
  - assert (Hm : dict_mem name d = true) by (apply dict_mem_get; eauto).
    destruct op; cbn [run_op value_accepted command_of];
      unfold get_att_value, set_att_value, set_step_up, set_step_down;
      cbv zeta; unfold bind at 1; rewrite (instruments_keys_run st d Hd);
      rewrite Hmem, Hm.
    + unfold bind at 1. rewrite (instruments_getitem_run st d name Hd), Hins.
      rewrite exchange_run. destruct (dict_get name a) eqn:Hall; [reflexivity|].
      apply Hkeys in Hm. apply dict_mem_get in Hm. destruct Hm. congruence.
    + unfold bind at 1. rewrite att_values_allowed_getitem_run, Ha.
      destruct (dict_get name a) as [allowed|]; [|reflexivity].
      destruct (py_in att_value allowed); [|reflexivity].
      unfold bind at 1. rewrite (instruments_getitem_run st d name Hd), Hins.
      unfold bind at 1. rewrite py_float_run.
      destruct (float_of_pyval att_value) as [x|]; [|reflexivity].
      cbn [option_map]. apply exchange_run.
    + unfold bind at 1. rewrite (instruments_getitem_run st d name Hd), Hins.
      rewrite exchange_run. destruct (dict_get name a) eqn:Hall; [reflexivity|].
      apply Hkeys in Hm. apply dict_mem_get in Hm. destruct Hm. congruence.
    + unfold bind at 1. rewrite (instruments_getitem_run st d name Hd), Hins.
      rewrite exchange_run. destruct (dict_get name a) eqn:Hall; [reflexivity|].
      apply Hkeys in Hm. apply dict_mem_get in Hm. destruct Hm. congruence.
  - assert (Hm : dict_mem name d = false) by (apply dict_mem_false_get; exact Hins).
    destruct op; cbn [run_op unknown_name_triple];
      unfold get_att_value, set_att_value, set_step_up, set_step_down;
      cbv zeta; unfold bind at 1; rewrite (instruments_keys_run st d Hd);
      rewrite Hmem, Hm; reflexivity.
Qed.

(** The three methods without a second check, on a known name: only the
    attribute [instruments] is consulted. *)
Lemma plain_op_run (op : control_op) (name : string) (st : state)
    (d : dict session) (ins : session) (command : string) :
  instruments (self st) = InstrDict d ->
  dict_get name d = Some ins ->
  match op with SetAttValue _ => False | _ => True end ->
  command_of op = Some command ->
  run_op op name st =
    (answer_triple (fst (query ins command (env st))),
     after_query st ins command).
Proof.
  intros Hd Hins Hop Hc.
  assert (Hm : str_in name (dict_keys d) = true)
    by (apply (dict_mem_get name d); eauto).
  destruct op; try contradiction; cbn in Hc; inversion Hc; subst command;
    cbn [run_op]; unfold get_att_value, set_step_up, set_step_down;
    cbv zeta; unfold bind at 1; rewrite (instruments_keys_run st d Hd), Hm;
    unfold bind at 1; rewrite (instruments_getitem_run st d name Hd), Hins;
    apply exchange_run.
Qed.

#[local] Ltac unfold_methods :=
  unfold run_op, get_att_value, set_att_value, set_step_up, set_step_down,
    get_instrument_names, instruments_keys, instruments_getitem,
    att_values_allowed_getitem, visa_query, py_float, py_float_of_str,
    call, get_self, bind, ret, raise.

#[local] Ltac split_run H :=
  repeat match type of H with
         | context [match ?x with _ => _ end] => destruct x eqn:?
         | context [if ?x then _ else _] => destruct x eqn:?
         end.

(** C3: on a name that is not a key of [instruments], [get_att_value] and
    [set_att_value] return [(False, None, 'Instrument name not found')],
    [set_step_up] and [set_step_down] return
    [(False, None, 'Unsupported attenuation value')]; the state is left as
    it was. *)
Theorem unknown_name_messages (st : state) (d : dict session) (name : string) :
  instruments (self st) = InstrDict d ->
  dict_mem name d = false ->
  get_att_value name st = (Ret (false, None, "Instrument name not found"), st) /\
  (forall v,
     set_att_value name v st = (Ret (false, None, "Instrument name not found"), st)) /\
  set_step_up name st = (Ret (false, None, "Unsupported attenuation value"), st) /\
  set_step_down name st = (Ret (false, None, "Unsupported attenuation value"), st).
Proof.
  intros Hd Hm. unfold dict_mem in Hm.
  repeat split; intros; unfold_methods; rewrite Hd, Hm; reflexivity.
Qed.

(** C9: whenever a control method returns, its triple has [status] true
    exactly when the value is not [None], and exactly when the message is
    the empty string. *)
Theorem returned_triple_consistent (op : control_op) (name : string)
    (st st' : state) (t : triple) :
  run_op op name st = (Ret t, st') ->
  (status_of t = true <-> value_of t <> None) /\
  (status_of t = true <-> message_of t = "").
Proof.
  intros H. destruct op; revert H; unfold_methods; intros H;
    split_run H; inversion H; subst; cbn;
    (split; split; intros; congruence).
Qed.

(** C10: when [set_att_value] rejects its arguments (name unknown, or
    value not in the cached list of the instrument), it returns a failure
    triple in the very state it started from: object, world and log are
    untouched.  And whenever a run of [set_att_value] changes the state,
    the change is one [query] on the instrument of that name, made after
    both checks passed. *)
Theorem set_att_value_checks_before_sending (st : state) (d : dict session)
    (a : dict (list string)) (name : string) (v : pyval) :
  registry st d a ->
  (dict_mem name d = false \/
   exists allowed, dict_get name a = Some allowed /\ py_in v allowed = false) ->
  (exists t, set_att_value name v st = (Ret t, st) /\
             status_of t = false /\ value_of t = None)
  /\
  (forall v' r st',
     set_att_value name v' st = (r, st') ->
     st' = st \/
     exists ins allowed command,
       dict_get name d = Some ins /\
       dict_get name a = Some allowed /\
       py_in v' allowed = true /\
       st' = after_query st ins command).
Proof.
  intros Hreg Hrej. split.
  - change (set_att_value name v) with (run_op (SetAttValue v) name).
    rewrite (run_op_registry _ _ _ _ _ Hreg). cbn [value_accepted].
    destruct Hrej as [Hm | [allowed [Hall Hin]]].
    + apply dict_mem_false_get in Hm. rewrite Hm.
      eexists; split; [reflexivity | split; reflexivity].
    + rewrite Hall, Hin. destruct (dict_get name d);
        eexists; split; try reflexivity; split; reflexivity.
  - intros v' r st'.
    change (set_att_value name v') with (run_op (SetAttValue v') name).
    rewrite (run_op_registry _ _ _ _ _ Hreg). cbn [value_accepted].
    destruct (dict_get name d) as [ins|]; [|intros H; inversion H; auto].
    destruct (dict_get name a) as [allowed|]; [|intros H; inversion H; auto].
    destruct (py_in v' allowed) eqn:Hin; [|intros H; inversion H; auto].
    destruct (command_of (SetAttValue v')) as [c|];
      [|intros H; inversion H; auto].
    intros H; inversion H; subst. right. exists ins, allowed, c. auto.
Qed.



End Control.

(** ** Names and dicts *)

Lemma fmt_d_inj (i j : nat) : fmt_d i = fmt_d j -> i = j.
Proof.
  unfold fmt_d. intros H.
  assert (E : Some (Nat.to_uint i) = Some (Nat.to_uint j))
    by (rewrite <- !NilEmpty.usu; f_equal; exact H).
  injection E as E.
  rewrite <- (Unsigned.of_to i), <- (Unsigned.of_to j). f_equal. exact E.
Qed.

Lemma att_name_inj (i j : nat) : att_name i = att_name j -> i = j.
Proof.
  unfold att_name. cbn. intros H. injection H as H. apply fmt_d_inj, H.
Qed.

Lemma att_names_NoDup (k : nat) : NoDup (map att_name (seq 0 k)).
Proof.
  induction k as [|k IH]; [constructor|].
  rewrite seq_S, map_app. cbn.
  apply NoDup_app; [exact IH | repeat constructor; intros [] |].
  intros x Hx [Hy|[]]. subst x. apply in_map_iff in Hx.
  destruct Hx as [i [Hi Hin]]. apply att_name_inj in Hi. subst i.
  apply in_seq in Hin. lia.
Qed.

Lemma list_index_app (x : string) (done rest : list string) :
  ~ In x done -> list_index x (done ++ x :: rest) = Some (length done).
Proof.
  induction done as [|y done IH]; intros Hn; cbn.
  - rewrite String.eqb_refl. reflexivity.
  - destruct (String.eqb_spec x y) as [->|Hne].
    + exfalso. apply Hn. left. reflexivity.
    + rewrite IH; [reflexivity|]. intros H. apply Hn. right. exact H.
Qed.

Lemma list_index_In (x : string) (l : list string) :
  In x l -> exists i, list_index x l = Some i.
Proof.
  induction l as [|y l IH]; [intros []|]. intros H. cbn.
  destruct (String.eqb_spec x y) as [->|Hne]; [eauto|].
  destruct H as [H|H]; [congruence|].
  destruct (IH H) as [i Hi]. rewrite Hi. cbn. eauto.
Qed.

Lemma dict_set_fresh {V : Type} (k : string) (v : V) (d : dict V) :
  ~ In k (dict_keys d) -> dict_set k v d = d ++ [(k, v)].
Proof.
  induction d as [|[k' v'] d IH]; intros Hn; cbn; [reflexivity|].
  destruct (String.eqb_spec k k') as [->|Hne].
  - exfalso. apply Hn. left. reflexivity.
  - rewrite IH; [reflexivity|]. intros H. apply Hn. right. exact H.
Qed.

Lemma dict_set_keys {V : Type} (k : string) (v : V) (d : dict V) :
  dict_keys (dict_set k v d) =
    if dict_mem k d then dict_keys d else dict_keys d ++ [k].
Proof.
  unfold dict_mem, str_in, dict_keys.
  induction d as [|[k' v'] d IH]; cbn; [reflexivity|].
  destruct (String.eqb k k'); cbn; [reflexivity|].
  rewrite IH. destruct (existsb (String.eqb k) (map fst d)); reflexivity.
Qed.

Lemma dict_set_NoDup {V : Type} (k : string) (v : V) (d : dict V) :
  NoDup (dict_keys d) -> NoDup (dict_keys (dict_set k v d)).
Proof.
  intros H. rewrite dict_set_keys. destruct (dict_mem k d) eqn:Hm; [exact H|].
  apply NoDup_app; [exact H | repeat constructor; intros [] |].
  intros x Hx [Hy|[]]. subst x. apply str_in_spec in Hx.
  unfold dict_mem in Hm. congruence.
Qed.

Lemma dict_mem_set {V : Type} (name k : string) (v : V) (d : dict V) :
  dict_mem name (dict_set k v d) = String.eqb name k || dict_mem name d.
Proof.
  unfold dict_mem, str_in, dict_keys.
  induction d as [|[k' v'] d IH]; cbn; [reflexivity|].
  destruct (String.eqb_spec k k') as [->|Hne]; cbn.
  - destruct (String.eqb name k'); reflexivity.
  - rewrite IH. destruct (String.eqb name k), (String.eqb name k'); reflexivity.
Qed.

Lemma combine_snoc {A B : Type} (l : list A) (l' : list B) (x : A) (y : B) :
  length l = length l' ->
  combine (l ++ [x]) (l' ++ [y]) = combine l l' ++ [(x, y)].
Proof.
  revert l'. induction l as [|a l IH]; intros [|b l'] H; cbn in *;
    try discriminate; [reflexivity|].
  rewrite IH; [reflexivity | lia].
Qed.

Lemma combine_keys {A : Type} (ks : list string) (vs : list A) :
  length ks = length vs -> dict_keys (combine ks vs) = ks.
Proof.
  unfold dict_keys. revert vs.
  induction ks as [|k ks IH]; intros [|v vs] H; cbn in *;
    try discriminate; [reflexivity|].
  rewrite IH; [reflexivity | lia].
Qed.

(** ** Construction *)

Section Construction.

Context {FO : FloatOps} {V : Visa}.

Lemma tracks_ret {A : Type} (P : event -> bool) (a : A) : tracks P (ret a).
Proof.
  intros st r st' H. inversion H; subst. exists [].
  rewrite app_nil_r. cbn. repeat split; auto; discriminate.
Qed.

Lemma tracks_raise {A : Type} (P : event -> bool) (e : exn) :
  tracks P (raise e : M A).
Proof.
  intros st r st' H. inversion H; subst. exists [].
  rewrite app_nil_r. cbn. repeat split; auto.
Qed.

Lemma tracks_get_self (P : event -> bool) : tracks P get_self.
Proof.
  intros st r st' H. inversion H; subst. exists [].
  rewrite app_nil_r. cbn. repeat split; auto; discriminate.
Qed.

Lemma tracks_set_self (P : event -> bool) (f : RfControl -> RfControl) :
  tracks P (set_self f).
Proof.
  intros st r st' H. inversion H; subst. exists [].
  rewrite app_nil_r. cbn. repeat split; auto; discriminate.
Qed.

Lemma tracks_bind {A B : Type} (P : event -> bool) (m : M A) (k : A -> M B) :
  tracks P m -> (forall a, tracks P (k a)) -> tracks P (bind m k).
Proof.
  intros Hm Hk st r st' H. unfold bind in H.
  destruct (m st) as [r1 st1] eqn:H1.
  destruct (Hm _ _ _ H1) as [new1 [Hl1 [Hp1 Hf1]]].
  destruct r1 as [a|e].
  - destruct (Hk a _ _ _ H) as [new2 [Hl2 [Hp2 Hf2]]].
    exists (new1 ++ new2). rewrite Hl2, Hl1, app_assoc.
    split; [reflexivity|]. rewrite forallb_app, Hp1, Hp2.
    split; [reflexivity|]. rewrite existsb_app. intros Hx.
    apply orb_true_iff in Hx. destruct Hx as [Hx|Hx]; [|auto].
    apply Hf1 in Hx. discriminate.
  - inversion H; subst. exists new1. auto.
Qed.

Lemma tracks_call {A : Type} (P : event -> bool)
    (op : world -> result A * world) (entry : result A -> event) :
  (forall r, P (entry r) = true) ->
  (forall r, is_failed_io (entry r) = true -> returned r = None) ->
  tracks P (call op entry).
Proof.
  intros HP HF st r st' H. unfold call in H.
  destruct (op (env st)) as [r0 w]. inversion H; subst.
  exists [entry r]. cbn. rewrite HP. repeat split; auto.
  rewrite orb_false_r. apply HF.
Qed.

Lemma keeps_self_call {A : Type} (op : world -> result A * world)
    (entry : result A -> event) : keeps_self (call op entry).
Proof.
  intros st r st' H. unfold call in H.
  destruct (op (env st)). inversion H; subst. reflexivity.
Qed.

Lemma keeps_self_bind {A B : Type} (m : M A) (k : A -> M B) :
  keeps_self m -> (forall a, keeps_self (k a)) -> keeps_self (bind m k).
Proof.
  intros Hm Hk st r st' H. unfold bind in H.
  destruct (m st) as [r1 st1] eqn:H1. pose proof (Hm _ _ _ H1) as E1.
  destruct r1 as [a|e].
  - rewrite (Hk a _ _ _ H). exact E1.
  - inversion H; subst. exact E1.
Qed.

Lemma keeps_self_ret {A : Type} (a : A) : keeps_self (ret a).
Proof. intros st r st' H. inversion H; subst. reflexivity. Qed.

Lemma keeps_self_raise {A : Type} (e : exn) : keeps_self (raise e : M A).
Proof. intros st r st' H. inversion H; subst. reflexivity. Qed.

Create HintDb rf.

#[local] Hint Resolve tracks_ret tracks_raise tracks_get_self tracks_set_self
  keeps_self_ret keeps_self_raise keeps_self_call : rf.

(** Every pyvisa call but the two closing ones is tracked by a predicate
    that holds of its entry. *)
Lemma tracks_ResourceManager (P : event -> bool) (backend : string) :
  P (EvResourceManager backend) = true -> tracks P (visa_ResourceManager backend).
Proof. intros H. apply tracks_call; [intros; exact H | discriminate]. Qed.

Lemma tracks_list_resources (P : event -> bool) (rm : manager) :
  P EvListResources = true -> tracks P (visa_list_resources rm).
Proof. intros H. apply tracks_call; [intros; exact H | discriminate]. Qed.

Lemma tracks_open_resource (P : event -> bool) (rm : manager) (address : string) :
  (forall o, P (EvOpen address o) = true) ->
  tracks P (visa_open_resource rm address).
Proof.
  intros H. apply tracks_call; [intros; apply H|].
  intros [s|e]; [discriminate | reflexivity].
Qed.

Lemma tracks_set_read_termination (P : event -> bool) (ins : session) (t : string) :
  P (EvSetReadTermination ins t) = true ->
  tracks P (visa_set_read_termination ins t).
Proof. intros H. apply tracks_call; [intros; exact H | discriminate]. Qed.

Lemma tracks_set_timeout (P : event -> bool) (ins : session) (ms : Z) :
  P (EvSetTimeout ins ms) = true -> tracks P (visa_set_timeout ins ms).
Proof. intros H. apply tracks_call; [intros; exact H | discriminate]. Qed.

Lemma tracks_query (P : event -> bool) (ins : session) (command : string) :
  (forall o, P (EvQuery ins command o) = true) ->
  tracks P (visa_query ins command).
Proof.
  intros H. apply tracks_call; [intros; apply H|].
  intros [s|e]; [discriminate | reflexivity].
Qed.

#[local] Ltac track :=
  repeat first
    [ apply tracks_ret | apply tracks_raise | apply tracks_get_self
    | apply tracks_set_self
    | apply tracks_ResourceManager; reflexivity
    | apply tracks_list_resources; reflexivity
    | apply tracks_open_resource; reflexivity
    | apply tracks_set_read_termination; reflexivity
    | apply tracks_set_timeout; reflexivity
    | apply tracks_query; reflexivity
    | apply tracks_bind; [|intros ?] ].

Lemma tracks_open_instruments (P : event -> bool) (rm : manager)
    (names todo : list string) (acc : dict session) :
  (forall address o, P (EvOpen address o) = true) ->
  tracks P (open_instruments rm names todo acc).
Proof.
  intros HP. revert acc. induction todo as [|ins rest IH]; intros acc; cbn.
  - track.
  - destruct (list_index ins names); [|track].
    apply tracks_bind; [apply tracks_open_resource; intros; apply HP|].
    intros unit. apply IH.
Qed.

Lemma tracks_apply_settings (P : event -> bool) (units : list session)
    (line_termination : string) (timeout : Z) :
  (forall ins t, P (EvSetReadTermination ins t) = true) ->
  (forall ins ms, P (EvSetTimeout ins ms) = true) ->
  tracks P (apply_settings units line_termination timeout).
Proof.
  intros H1 H2. induction units as [|unit rest IH]; cbn.
  - track.
  - apply tracks_bind; [apply tracks_set_read_termination; apply H1|].
    intros _. apply tracks_bind; [apply tracks_set_timeout; apply H2|].
    intros _. exact IH.
Qed.

Lemma tracks_query_allowed (P : event -> bool) (items : list (string * session))
    (acc : dict (list string)) :
  (forall ins c o, P (EvQuery ins c o) = true) ->
  tracks P (query_allowed items acc).
Proof.
  intros HP. revert acc. induction items as [|[name ins] rest IH]; intros acc; cbn.
  - track.
  - apply tracks_bind; [apply tracks_query; intros; apply HP|].
    intros table. apply IH.
Qed.

Lemma tracks_instruments_values (P : event -> bool) : tracks P instruments_values.
Proof.
  unfold instruments_values. apply tracks_bind; [track|].
  intros o. destruct (instruments o); track.
Qed.

Lemma tracks_instruments_items (P : event -> bool) : tracks P instruments_items.
Proof.
  unfold instruments_items. apply tracks_bind; [track|].
  intros o. destruct (instruments o); track.
Qed.

(** [__init__] closes nothing, and a failed [open_resource] or [query]
    makes it raise. *)
Lemma tracks_init (timeout : Z) (line_termination : string) :
  tracks (fun e => negb (is_close e)) (init timeout line_termination).
Proof.
  unfold init.
  apply tracks_bind; [track|]. intros rm.
  apply tracks_bind; [track|]. intros _.
  apply tracks_bind; [track|]. intros found.
  apply tracks_bind; [track|]. intros _.
  apply tracks_bind; [track|]. intros o.
  destruct (resource_names o); [track|].
  apply tracks_bind; [apply tracks_open_instruments; reflexivity|]. intros opened.
  apply tracks_bind; [track|]. intros _.
  apply tracks_bind; [apply tracks_instruments_values|]. intros units.
  apply tracks_bind; [apply tracks_apply_settings; reflexivity|]. intros _.
  apply tracks_bind; [apply tracks_instruments_items|]. intros items.
  apply tracks_bind; [apply tracks_query_allowed; reflexivity|]. intros allowed.
  track.
Qed.

Lemma opened_sessions_app (l1 l2 : list event) :
  opened_sessions (l1 ++ l2) = opened_sessions l1 ++ opened_sessions l2.
Proof.
  induction l1 as [|e l1 IH]; [reflexivity|].
  destruct e as [b| |a [s|]|i t|i ms|i c o|i|]; cbn; rewrite ?IH; reflexivity.
Qed.

Lemma opened_sessions_In (l : list event) (address : string) (ins : session) :
  In (address, ins) (opened_sessions l) <-> In (EvOpen address (Some ins)) l.
Proof.
  induction l as [|e l IH]; [reflexivity|].
  destruct e as [b| |a [s|]|i t|i ms|i c o|i|]; cbn; rewrite ?IH;
    try (split; [auto | intros [H|H]; [discriminate | exact H]]).
  split; intros [H|H]; auto; left; congruence.
Qed.


(** C6: when the listing holds no address with ACM in it, [RfControl()]
    raises [NameError] with the message that starts with
    [No ACM resources found]; the only pyvisa calls made are the creation
    of the resource manager and the listing, so that no session is
    opened. *)
Theorem no_acm_resources_raises (timeout : Z) (line_termination : string)
    (w w1 w2 : world) (l : list event) (rm : manager) (found : list string) :
  ResourceManager "@py" w = (Ret rm, w1) ->
  list_resources rm w1 = (Ret found, w2) ->
  get_acm_ctrl_list found = [] ->
  exists st',
    construct timeout line_termination w l =
      (Raise (NameError no_acm_message), st') /\
    String.prefix "No ACM resources found" no_acm_message = true /\
    log st' = l ++ [EvResourceManager "@py"; EvListResources] /\
    opened_sessions (log st') = opened_sessions l /\
    env st' = w2 /\
    instruments (self st') = InstrList [].
Proof.
  intros Hrm Hls Hnone. eexists.
  unfold construct, init, bind, visa_ResourceManager, visa_list_resources,
    call, set_self, get_self, raise.
  cbn [env self log]. rewrite Hrm. cbn [env self log]. rewrite Hls.
  cbn [env self log resource_names]. rewrite Hnone.
  split; [reflexivity|]. split; [reflexivity|]. cbn [log].
  rewrite <- app_assoc. split; [reflexivity|].
  rewrite opened_sessions_app. cbn. rewrite app_nil_r. auto.
Qed.

Lemma bind_Ret_inv {A B : Type} (m : M A) (k : A -> M B) (st st' : state) (b : B) :
  bind m k st = (Ret b, st') ->
  exists a st1, m st = (Ret a, st1) /\ k a st1 = (Ret b, st').
Proof.
  unfold bind. destruct (m st) as [[a|e] st1]; [eauto | discriminate].
Qed.

Lemma visa_open_resource_Ret (rm : manager) (address : string)
    (st st' : state) (unit : session) :
  visa_open_resource rm address st = (Ret unit, st') ->
  self st' = self st /\ log st' = log st ++ [EvOpen address (Some unit)].
Proof.
  unfold visa_open_resource, call.
  destruct (open_resource rm address (env st)) as [r w].
  intros H. inversion H; subst. auto.
Qed.

(** The loop of the dict comprehension on addresses without repetition:
    after the addresses [done], the dict pairs the names [att0], [att1],
    ... with the sessions opened for them, in order. *)
Lemma open_instruments_distinct (rm : manager) (todo done : list string)
    (units : list session) (st st' : state) (opened : dict session) :
  NoDup (done ++ todo) ->
  length units = length done ->
  open_instruments rm (done ++ todo) todo
    (combine (map att_name (seq 0 (length done))) units) st = (Ret opened, st') ->
  exists more,
    length more = length todo /\
    opened = combine (map att_name (seq 0 (length (done ++ todo)))) (units ++ more) /\
    log st' = log st ++ map (fun p => EvOpen (fst p) (Some (snd p))) (combine todo more) /\
    self st' = self st.
Proof.
  revert done units st. induction todo as [|ins rest IH]; intros done units st Hnd Hlen H.
  - cbn in H. inversion H; subst. exists [].
    repeat split; cbn; rewrite ?app_nil_r; reflexivity.
  - cbn [open_instruments] in H.
    rewrite list_index_app in H
      by (apply NoDup_remove_2 in Hnd; intros Hin; apply Hnd, in_or_app; auto).
    apply bind_Ret_inv in H. destruct H as [unit [st1 [Hopen H]]].
    apply visa_open_resource_Ret in Hopen. destruct Hopen as [Hself Hlog].
    rewrite dict_set_fresh in H.
    2:{ rewrite combine_keys by (rewrite length_map, length_seq; lia).
        intros Hin. apply in_map_iff in Hin. destruct Hin as [i [Hi Hin]].
        apply att_name_inj in Hi. subst i. apply in_seq in Hin. lia. }
    rewrite <- combine_snoc in H by (rewrite length_map, length_seq; lia).
    replace (map att_name (seq 0 (length done)) ++ [att_name (length done)])
      with (map att_name (seq 0 (length (done ++ [ins])))) in H
      by (rewrite length_app, Nat.add_1_r, seq_S, map_app; reflexivity).
    replace (done ++ ins :: rest) with ((done ++ [ins]) ++ rest) in *
      by (rewrite <- app_assoc; reflexivity).
    apply IH in H; [|exact Hnd | rewrite !length_app; cbn; lia].
    destruct H as [more [Hm [Ho [Hl Hs]]]]. exists (unit :: more).
    split; [cbn; lia|]. split; [rewrite Ho, <- !app_assoc; reflexivity|].
    split; [|congruence].
    rewrite Hl, Hlog, <- app_assoc. reflexivity.
Qed.

(** Whatever the addresses, the keys of the dict stay without
    repetition. *)
Lemma open_instruments_keys (rm : manager) (names todo : list string)
    (acc : dict session) (st st' : state) (opened : dict session) :
  NoDup (dict_keys acc) ->
  open_instruments rm names todo acc st = (Ret opened, st') ->
  NoDup (dict_keys opened) /\ self st' = self st.
Proof.
  revert acc st. induction todo as [|ins rest IH]; intros acc st Hnd H.
  - cbn in H. inversion H; subst. auto.
  - cbn [open_instruments] in H.
    destruct (list_index ins names) as [i|]; [|discriminate].
    apply bind_Ret_inv in H. destruct H as [unit [st1 [Hopen H]]].
    apply visa_open_resource_Ret in Hopen. destruct Hopen as [Hself _].
    apply IH in H; [|apply dict_set_NoDup, Hnd].
    destruct H as [H1 H2]. split; [exact H1 | congruence].
Qed.

Lemma keeps_self_apply_settings (units : list session)
    (line_termination : string) (timeout : Z) :
  keeps_self (apply_settings units line_termination timeout).
Proof.
  induction units as [|unit rest IH]; cbn; auto with rf.
  apply keeps_self_bind; [apply keeps_self_call|]. intros _.
  apply keeps_self_bind; [apply keeps_self_call|]. intros _. exact IH.
Qed.

Lemma query_allowed_keys (items : list (string * session))
    (acc a : dict (list string)) (st st' : state) :
  query_allowed items acc st = (Ret a, st') ->
  self st' = self st /\
  forall name,
    dict_mem name items = true \/ dict_mem name acc = true ->
    dict_mem name a = true.
Proof.
  revert acc st. induction items as [|[k ins] rest IH]; intros acc st H.
  - cbn in H. inversion H; subst. split; [reflexivity|].
    intros name [Hn|Hn]; [discriminate | exact Hn].
  - cbn [query_allowed] in H. apply bind_Ret_inv in H.
    destruct H as [table [st1 [Hq H]]].
    apply keeps_self_call in Hq. apply IH in H. destruct H as [Hs Hk].
    split; [congruence|]. intros name Hn. apply Hk.
    rewrite dict_mem_set. unfold dict_mem, str_in, dict_keys in Hn |- *.
    cbn in Hn. destruct (String.eqb name k); cbn in *; [auto|exact Hn].
Qed.

Lemma no_open_entries (new : list event) :
  forallb (fun e => negb (is_open e)) new = true -> opened_sessions new = [].
Proof.
  induction new as [|e new IH]; [reflexivity|]. cbn. intros H.
  apply andb_true_iff in H. destruct H as [He H].
  destruct e as [b| |a [s|]|i t|i ms|i c o|i|]; cbn in *;
    try discriminate; auto.
Qed.

(** What a successful [RfControl()] has done. *)
Lemma construct_Ret (timeout : Z) (line_termination : string) (w : world)
    (l : list event) (st' : state) :
  construct timeout line_termination w l = (Ret tt, st') ->
  exists rm w1 found w2 st2 opened st3 allowed later,
    ResourceManager "@py" w = (Ret rm, w1) /\
    list_resources rm w1 = (Ret found, w2) /\
    log st2 = l ++ [EvResourceManager "@py"; EvListResources] /\
    open_instruments rm (get_acm_ctrl_list found) (get_acm_ctrl_list found) []
      st2 = (Ret opened, st3) /\
    self st' = {| resource_mgr := Some rm;
                  resource_names := get_acm_ctrl_list found;
                  instruments := InstrDict opened;
                  att_values_allowed := allowed |} /\
    log st' = log st3 ++ later /\
    opened_sessions later = [] /\
    (forall name, dict_mem name opened = true -> dict_mem name allowed = true).
Proof.
  unfold construct, init. intros H.
  apply bind_Ret_inv in H. destruct H as [rm [st1 [Hrm H]]].
  unfold visa_ResourceManager, call in Hrm. cbn [env self log] in Hrm.
  destruct (ResourceManager "@py" w) as [r1 w1] eqn:E1.
  inversion Hrm; subst r1 st1; clear Hrm.
  apply bind_Ret_inv in H. destruct H as [[] [st1 [Hset H]]].
  inversion Hset; subst st1; clear Hset. cbn [env self log] in H.
  apply bind_Ret_inv in H. destruct H as [found [st1 [Hls H]]].
  unfold visa_list_resources, call in Hls. cbn [env self log] in Hls.
  destruct (list_resources rm w1) as [r2 w2] eqn:E2.
  inversion Hls; subst r2 st1; clear Hls.
  apply bind_Ret_inv in H. destruct H as [[] [st1 [Hset H]]].
  inversion Hset; subst st1; clear Hset. cbn [env self log] in H.
  apply bind_Ret_inv in H. destruct H as [o [st2 [Hget H]]].
  inversion Hget; subst o st2; clear Hget.
  cbn [self resource_names resource_mgr instruments att_values_allowed] in H.
  destruct (get_acm_ctrl_list found) as [|ins0 rest0] eqn:Hnames; [discriminate|].
  apply bind_Ret_inv in H. destruct H as [opened [st3 [Hopen H]]].
  pose proof (open_instruments_keys rm _ _ [] _ _ _ (NoDup_nil _) Hopen) as [_ Hs3].
  apply bind_Ret_inv in H. destruct H as [[] [st4 [Hset H]]].
  inversion Hset; subst st4; clear Hset.
  apply bind_Ret_inv in H. destruct H as [units [st4 [Hval H]]].
  unfold instruments_values, bind, get_self in Hval.
  cbn [self instruments] in Hval. inversion Hval; subst units st4; clear Hval.
  apply bind_Ret_inv in H. destruct H as [[] [st5 [Happ H]]].
  pose proof (keeps_self_apply_settings _ _ _ _ _ _ Happ) as Hs5.
  pose proof (tracks_apply_settings (fun e => negb (is_open e)) _ _ _
                (fun _ _ => eq_refl) (fun _ _ => eq_refl) _ _ _ Happ)
    as [new5 [Hl5 [Hp5 _]]].
  apply bind_Ret_inv in H. destruct H as [items [st6 [Hit H]]].
  unfold instruments_items, bind, get_self in Hit. rewrite Hs5 in Hit.
  cbn [self instruments] in Hit. inversion Hit; subst items st6; clear Hit.
  apply bind_Ret_inv in H. destruct H as [allowed [st6 [Hq H]]].
  pose proof (query_allowed_keys _ _ _ _ _ Hq) as [Hs6 Hkeys].
  pose proof (tracks_query_allowed (fun e => negb (is_open e)) _ _
                (fun _ _ _ => eq_refl) _ _ _ Hq)
    as [new6 [Hl6 [Hp6 _]]].
  inversion H; subst st'; clear H.
  exists rm, w1, found, w2.
  match type of Hopen with
  | open_instruments _ _ _ _ ?s = _ => exists s
  end.
  exists opened, st3, allowed, (new5 ++ new6).
  split; [reflexivity|]. split; [exact E2|]. rewrite ?Hnames.
  split; [cbn [log]; rewrite <- app_assoc; reflexivity|].
  split; [exact Hopen|].
  split; [cbn [self]; rewrite Hs6, Hs5; cbn; rewrite Hs3; reflexivity|].
  split; [cbn [log]; rewrite Hl6, Hl5; cbn [log]; rewrite app_assoc; reflexivity|].
  split; [rewrite opened_sessions_app, !no_open_entries by assumption; reflexivity|].
  intros name Hn. apply Hkeys. left. exact Hn.
Qed.

(** A successful [RfControl()] leaves a constructed registry. *)
Lemma construct_registry (timeout : Z) (line_termination : string) (w : world)
    (l : list event) (st' : state) :
  construct timeout line_termination w l = (Ret tt, st') ->
  exists d a, registry st' d a /\ NoDup (dict_keys d).
Proof.
  intros H. apply construct_Ret in H.
  destruct H as (rm & w1 & found & w2 & st2 & opened & st3 & allowed & later
                 & _ & _ & _ & Hopen & Hself & _ & _ & Hkeys).
  exists opened, allowed. split.
  - unfold registry. rewrite Hself. cbn. auto.
  - apply (open_instruments_keys rm _ _ [] _ _ _ (NoDup_nil _) Hopen).
Qed.

Lemma opened_sessions_opens (pairs : list (string * session)) :
  opened_sessions (map (fun p => EvOpen (fst p) (Some (snd p))) pairs) = pairs.
Proof.
  induction pairs as [|[address ins] pairs IH]; [reflexivity|].
  cbn. rewrite IH. reflexivity.
Qed.


End Construction.

(** ** Construction, step by step *)

Section ConstructionRun.

Context {FO : FloatOps} {V : Visa}.

(** [RfControl()] written out: each pyvisa call either raises, and the
    constructor raises with it, or lets the next one be made. *)
Lemma construct_run (timeout : Z) (line_termination : string) (w : world)
    (l : list event) :
  construct timeout line_termination w l =
    match ResourceManager "@py" w with
    | (Raise e, w1) =>
        (Raise e, {| self := class_attributes; env := w1;
                     log := l ++ [EvResourceManager "@py"] |})
    | (Ret rm, w1) =>
        match list_resources rm w1 with
        | (Raise e, w2) =>
            (Raise e,
             {| self := {| resource_mgr := Some rm; resource_names := [];
                           instruments := InstrList [];
                           att_values_allowed := [] |};
                env := w2;
                log := (l ++ [EvResourceManager "@py"]) ++ [EvListResources] |})
        | (Ret found, w2) =>
            match get_acm_ctrl_list found with
            | [] => (Raise (NameError no_acm_message), after_listing rm found w2 l)
            | _ :: _ =>
                match open_instruments rm (get_acm_ctrl_list found)
                        (get_acm_ctrl_list found) []
                        (after_listing rm found w2 l) with
                | (Raise e, st3) => (Raise e, st3)
                | (Ret opened, st3) =>
                    match apply_settings (dict_values opened) line_termination
                            timeout (store_instruments st3 opened) with
                    | (Raise e, st5) => (Raise e, st5)
                    | (Ret _, st5) =>
                        match query_allowed (dict_items opened) [] st5 with
                        | (Raise e, st6) => (Raise e, st6)
                        | (Ret allowed, st6) => (Ret tt, store_allowed st6 allowed)
                        end
                    end
                end
            end
        end
    end.
Proof.
  unfold construct, init.
  unfold bind at 1. unfold visa_ResourceManager at 1, call. cbn [env self log].
  destruct (ResourceManager "@py" w) as [[rm|e] w1]; [|reflexivity].
  unfold bind at 1. unfold set_self at 1. cbn [env self log].
  unfold bind at 1. unfold visa_list_resources at 1, call. cbn [env self log].
  destruct (list_resources rm w1) as [[found|e] w2]; [|reflexivity].
  unfold bind at 1. unfold set_self at 1. cbn [env self log].
  unfold bind at 1. unfold get_self at 1.
  cbn [self resource_names resource_mgr instruments att_values_allowed
       class_attributes].
  fold (after_listing rm found w2 l).
  destruct (get_acm_ctrl_list found) as [|ins0 rest0] eqn:Hnames; [reflexivity|].
  rewrite <- Hnames.
  unfold bind at 1.
  destruct (open_instruments rm (get_acm_ctrl_list found)
              (get_acm_ctrl_list found) [] (after_listing rm found w2 l))
    as [[opened|e] st3]; [|reflexivity].
  unfold bind at 1. unfold set_self at 1.
  fold (store_instruments st3 opened).
  unfold bind at 1.
  assert (Hv : instruments_values (store_instruments st3 opened) =
               (Ret (dict_values opened), store_instruments st3 opened))
    by reflexivity.
  rewrite Hv. unfold bind at 1.
  destruct (apply_settings (dict_values opened) line_termination timeout
              (store_instruments st3 opened)) as [[[]|e] st5] eqn:Hset;
    [|reflexivity].
  apply keeps_self_apply_settings in Hset.
  unfold bind at 1.
  assert (Hi : instruments_items st5 = (Ret (dict_items opened), st5)).
  { unfold instruments_items, bind, get_self. rewrite Hset. reflexivity. }
  rewrite Hi. unfold bind at 1.
  destruct (query_allowed (dict_items opened) [] st5) as [[allowed|e] st6];
    reflexivity.
Qed.

Lemma concat_split (s : string) :
  String.concat "," (split_on "," s) = s.
Proof.
  induction s as [|c s IH]; [reflexivity|].
  cbn [split_on]. destruct (Ascii.eqb_spec c ","%char) as [->|Hne].
  - destruct (split_on "," s) as [|f fs] eqn:E; cbn in IH |- *.
    + destruct s; cbn in E; [discriminate|].
      destruct (Ascii.eqb a ","); [discriminate|].
      destruct (split_on "," s); discriminate.
    + rewrite IH. reflexivity.
  - destruct (split_on "," s) as [|f fs] eqn:E.
    + cbn in IH |- *. subst s. reflexivity.
    + cbn [String.concat]. destruct fs as [|g gs].
      * cbn in IH. subst s. reflexivity.
      * cbn [String.concat] in IH. rewrite <- IH. reflexivity.
Qed.

Lemma str_contains_sep_cons (c : ascii) (f : string) :
  c <> ","%char ->
  str_contains "," (String c f) = str_contains "," f.
Proof.
  intros Hne.
  change (str_contains "," (String c f))
    with (if String.prefix "," (String c f) then true else str_contains "," f).
  assert (Hp : String.prefix "," (String c f) = false).
  { destruct (String.prefix "," (String c f)) eqn:E; [|reflexivity].
    apply prefix_has in E. destruct E as [rest E]. inversion E. congruence. }
  rewrite Hp. reflexivity.
Qed.

Lemma split_fields_plain (s : string) :
  Forall (fun field => str_contains "," field = false) (split_on "," s).
Proof.
  induction s as [|c s IH]; [repeat constructor|].
  cbn [split_on]. destruct (Ascii.eqb_spec c ","%char) as [->|Hne].
  - constructor; [reflexivity | exact IH].
  - destruct (split_on "," s) as [|f fs].
    + constructor; [|constructor].
      rewrite str_contains_sep_cons by exact Hne. reflexivity.
    + inversion IH as [|? ? Hf Hfs]; subst. constructor; [|exact Hfs].
      rewrite str_contains_sep_cons by exact Hne. exact Hf.
Qed.

Lemma dict_set_values {A : Type} (k : string) (v x : A) (d : dict A) :
  In x (dict_values (dict_set k v d)) -> x = v \/ In x (dict_values d).
Proof.
  unfold dict_values. induction d as [|[k' v'] d IH]; cbn.
  - intros [H|[]]; auto.
  - destruct (String.eqb k k'); cbn; intros [H|H]; auto.
    destruct (IH H); auto.
Qed.

(** The dict comprehension of line 36 when it completes: one
    [open_resource] per address, in order. *)
Lemma open_instruments_Ret (rm : manager) (names todo : list string)
    (acc opened : dict session) (st st' : state) :
  open_instruments rm names todo acc st = (Ret opened, st') ->
  exists sessions,
    length sessions = length todo /\
    log st' = log st ++ open_entries (combine todo sessions) /\
    (forall ins, In ins (dict_values opened) ->
       In ins (dict_values acc) \/ In ins sessions).
Proof.
  revert acc st. induction todo as [|ins rest IH]; intros acc st H.
  - cbn in H. inversion H; subst. exists []. cbn. rewrite app_nil_r. auto.
  - cbn [open_instruments] in H.
    destruct (list_index ins names) as [i|]; [|discriminate].
    apply bind_Ret_inv in H. destruct H as [unit [st1 [Hopen H]]].
    apply visa_open_resource_Ret in Hopen. destruct Hopen as [_ Hlog].
    apply IH in H. destruct H as [sessions [Hlen [Hl Hin]]].
    exists (unit :: sessions). split; [cbn; lia|]. split.
    + rewrite Hl, Hlog, <- app_assoc. reflexivity.
    + intros x Hx. destruct (Hin x Hx) as [Hacc|Hs]; [|right; right; exact Hs].
      apply dict_set_values in Hacc. destruct Hacc as [->|Hacc]; [right; left|left]; auto.
Qed.

(** The dict comprehension of line 36 in general: the addresses it calls
    [open_resource] on are the first ones of the list, in order; all of
    them when it completes. *)
Lemma open_instruments_prefix (rm : manager) (names todo : list string)
    (acc : dict session) (st st' : state) (r : result (dict session)) :
  open_instruments rm names todo acc st = (r, st') ->
  self st' = self st /\
  exists n new,
    log st' = log st ++ new /\
    open_addresses new = firstn n todo /\
    (returned r <> None -> n = length todo).
Proof.
  revert acc st. induction todo as [|ins rest IH]; intros acc st H.
  - cbn in H. inversion H; subst. split; [reflexivity|].
    exists 0, []. rewrite app_nil_r. auto.
  - cbn [open_instruments] in H.
    destruct (list_index ins names) as [i|].
    + unfold bind in H.
      destruct (visa_open_resource rm ins st) as [[unit|e] st1] eqn:Hopen.
      * apply visa_open_resource_Ret in Hopen. destruct Hopen as [Hs Hlog].
        apply IH in H. destruct H as [Hs' [n [new [Hl [Ho Hr]]]]].
        split; [congruence|]. exists (S n), (EvOpen ins (Some unit) :: new).
        split; [rewrite Hl, Hlog, <- app_assoc; reflexivity|].
        split; [cbn; rewrite Ho; reflexivity|].
        intros Hne. cbn. rewrite Hr by exact Hne. reflexivity.
      * inversion H; subst r st1; clear H.
        unfold visa_open_resource, call in Hopen.
        destruct (open_resource rm ins (env st)) as [r0 w0].
        inversion Hopen; subst. split; [reflexivity|].
        exists 1, [EvOpen ins None]. cbn. repeat split; auto.
        intros Hne. congruence.
    + inversion H; subst. split; [reflexivity|].
      exists 0, []. rewrite app_nil_r. cbn. repeat split; auto.
      intros Hne. congruence.
Qed.

(** The loop of line 40 when it completes. *)
Lemma apply_settings_Ret (units : list session) (line_termination : string)
    (timeout : Z) (st st' : state) :
  apply_settings units line_termination timeout st = (Ret tt, st') ->
  log st' = log st ++ settings_entries units line_termination timeout.
Proof.
  revert st. induction units as [|unit rest IH]; intros st H.
  - cbn in H. inversion H; subst. cbn. rewrite app_nil_r. reflexivity.
  - cbn [apply_settings] in H.
    apply bind_Ret_inv in H. destruct H as [[] [st1 [H1 H]]].
    apply bind_Ret_inv in H. destruct H as [[] [st2 [H2 H]]].
    apply IH in H. rewrite H.
    unfold visa_set_read_termination, call in H1.
    destruct (set_read_termination unit line_termination (env st)) as [r1 w1].
    inversion H1; subst r1 st1; clear H1.
    unfold visa_set_timeout, call in H2. cbn [env log] in H2.
    destruct (set_timeout unit timeout w1) as [r2 w2].
    inversion H2; subst r2 st2; clear H2.
    cbn [log settings_entries flat_map]. rewrite <- !app_assoc. reflexivity.
Qed.

Lemma visa_query_Ret (ins : session) (command answer : string)
    (st st' : state) :
  visa_query ins command st = (Ret answer, st') ->
  log st' = log st ++ [EvQuery ins command (Some answer)].
Proof.
  unfold visa_query, call. destruct (query ins command (env st)) as [r w].
  intros H. inversion H; subst. reflexivity.
Qed.

(** The dict comprehension of line 45 when it completes, on items with
    distinct names: one table query per instrument, in order, and the
    answers, split at the commas, stored under the names. *)
Lemma query_allowed_Ret (items done : list (string * session))
    (answered : list string) (a : dict (list string)) (st st' : state) :
  NoDup (dict_keys (done ++ items)) ->
  length answered = length done ->
  query_allowed items
    (combine (dict_keys done) (map (split_on ",") answered)) st = (Ret a, st') ->
  exists tables,
    length tables = length items /\
    a = combine (dict_keys (done ++ items))
          (map (split_on ",") (answered ++ tables)) /\
    log st' = log st ++ table_entries (combine (dict_values items) tables).
Proof.
  revert done answered st.
  induction items as [|[name ins] rest IH]; intros done answered st Hnd Hlen H.
  - cbn in H. inversion H; subst. exists [].
    repeat split; cbn; rewrite ?app_nil_r; reflexivity.
  - cbn [query_allowed] in H.
    apply bind_Ret_inv in H. destruct H as [table [st1 [Hq H]]].
    apply visa_query_Ret in Hq.
    rewrite dict_set_fresh in H.
    2:{ rewrite combine_keys
          by (unfold dict_keys; rewrite !length_map; lia).
        unfold dict_keys in Hnd |- *. rewrite map_app in Hnd. cbn in Hnd.
        apply NoDup_remove_2 in Hnd. intros Hin. apply Hnd, in_or_app. auto. }
    rewrite <- combine_snoc in H
      by (unfold dict_keys; rewrite !length_map; lia).
    replace (dict_keys done ++ [name]) with (dict_keys (done ++ [(name, ins)])) in H
      by (unfold dict_keys; rewrite map_app; reflexivity).
    replace (map (split_on ",") answered ++ [split_on "," table])
      with (map (split_on ",") (answered ++ [table])) in H
      by (rewrite map_app; reflexivity).
    replace (done ++ (name, ins) :: rest) with ((done ++ [(name, ins)]) ++ rest) in *
      by (rewrite <- app_assoc; reflexivity).
    apply IH in H; [|exact Hnd | rewrite !length_app; cbn; lia].
    destruct H as [tables [Hm [Ha Hl]]]. exists (table :: tables).
    split; [cbn; lia|]. split; [rewrite Ha, <- !app_assoc; reflexivity|].
    rewrite Hl, Hq, <- app_assoc. reflexivity.
Qed.

Lemma dict_as_combine {A : Type} (d : dict A) :
  d = combine (dict_keys d) (dict_values d).
Proof.
  unfold dict_keys, dict_values.
  induction d as [|[k v] d IH]; cbn; [reflexivity|]. rewrite <- IH. reflexivity.
Qed.

(** Looking a name up in the instruments and in a dict built on the same
    names picks entries at the same position. *)
Lemma dict_get_zip {A B C : Type} (f : B -> C) (name : string) (d : dict A)
    (tables : list B) (ins : A) :
  length tables = length d ->
  dict_get name d = Some ins ->
  exists table,
    In (ins, table) (combine (dict_values d) tables) /\
    dict_get name (combine (dict_keys d) (map f tables)) = Some (f table).
Proof.
  revert tables. induction d as [|[k v] d IH]; intros [|t ts] Hlen H;
    cbn in *; try discriminate.
  destruct (String.eqb name k).
  - inversion H; subst. exists t. auto.
  - destruct (IH ts) as [table [Hin Hg]]; [lia | exact H |].
    exists table. auto.
Qed.

(** What a successful [RfControl()] has done, in full. *)
Lemma construct_Ret_full (timeout : Z) (line_termination : string)
    (w : world) (l : list event) (st' : state) :
  construct timeout line_termination w l = (Ret tt, st') ->
  exists rm found d sessions tables,
    self st' = {| resource_mgr := Some rm;
                  resource_names := get_acm_ctrl_list found;
                  instruments := InstrDict d;
                  att_values_allowed :=
                    combine (dict_keys d) (map (split_on ",") tables) |} /\
    NoDup (dict_keys d) /\
    length sessions = length (get_acm_ctrl_list found) /\
    length tables = length d /\
    (forall ins, In ins (dict_values d) -> In ins sessions) /\
    log st' = l ++ [EvResourceManager "@py"; EvListResources]
                ++ open_entries (combine (get_acm_ctrl_list found) sessions)
                ++ settings_entries (dict_values d) line_termination timeout
                ++ table_entries (combine (dict_values d) tables).
Proof.
  rewrite construct_run.
  destruct (ResourceManager "@py" w) as [[rm|e] w1]; [|discriminate].
  destruct (list_resources rm w1) as [[found|e] w2]; [|discriminate].
  destruct (get_acm_ctrl_list found) as [|ins0 rest0] eqn:Hnames; [discriminate|].
  rewrite <- Hnames.
  destruct (open_instruments rm (get_acm_ctrl_list found)
              (get_acm_ctrl_list found) [] (after_listing rm found w2 l))
    as [[d|e] st3] eqn:Hopen; [|discriminate].
  destruct (apply_settings (dict_values d) line_termination timeout
              (store_instruments st3 d)) as [[[]|e] st5] eqn:Hset; [|discriminate].
  destruct (query_allowed (dict_items d) [] st5) as [[a|e] st6] eqn:Hq;
    [|discriminate].
  intros H. inversion H; subst st'; clear H.
  pose proof (open_instruments_keys rm _ _ [] _ _ _ (NoDup_nil _) Hopen)
    as [Hnd Hs3].
  pose proof (open_instruments_Ret _ _ _ _ _ _ _ Hopen) as [sessions [Hlen [Hl3 Hin]]].
  pose proof (keeps_self_apply_settings _ _ _ _ _ _ Hset) as Hs5.
  apply apply_settings_Ret in Hset.
  pose proof (query_allowed_keys _ _ _ _ _ Hq) as [Hs6 _].
  apply (query_allowed_Ret (dict_items d) [] []) in Hq; [|exact Hnd|reflexivity].
  destruct Hq as [tables [Hlt [Ha Hl6]]]. cbn [app] in Ha.
  exists rm, found, d, sessions, tables.
  split.
  - unfold store_allowed. cbn [self]. rewrite Hs6, Hs5. cbn. rewrite Hs3, Ha.
    reflexivity.
  - split; [exact Hnd|]. split; [exact Hlen|]. split; [exact Hlt|].
    split; [intros ins Hi; destruct (Hin ins Hi) as [[]|Hx]; exact Hx|].
    unfold store_allowed. cbn [log]. rewrite Hl6, Hset. cbn [store_instruments log].
    rewrite Hl3. unfold after_listing. cbn [log].
    rewrite <- !app_assoc. reflexivity.
Qed.

Lemma keeps_self_query_allowed (items : list (string * session))
    (acc : dict (list string)) : keeps_self (query_allowed items acc).
Proof.
  revert acc. induction items as [|[name ins] rest IH]; intros acc; cbn.
  - apply keeps_self_ret.
  - apply keeps_self_bind; [apply keeps_self_call|]. intros table. apply IH.
Qed.

Lemma no_open_addresses (new : list event) :
  forallb (fun e => negb (is_open e)) new = true -> open_addresses new = [].
Proof.
  induction new as [|e new IH]; [reflexivity|]. cbn. intros H.
  apply andb_true_iff in H. destruct H as [He H].
  destruct e; cbn in *; try discriminate; auto.
Qed.

Lemma open_addresses_app (l1 l2 : list event) :
  open_addresses (l1 ++ l2) = open_addresses l1 ++ open_addresses l2.
Proof.
  induction l1 as [|e l1 IH]; [reflexivity|].
  destruct e; cbn; rewrite ?IH; reflexivity.
Qed.

Lemma open_addresses_In (l : list event) (address : string) (o : option session) :
  In (EvOpen address o) l -> In address (open_addresses l).
Proof.
  induction l as [|e l IH]; [intros []|]. intros [->|H].
  - left. reflexivity.
  - destruct e; cbn; auto.
Qed.

Lemma open_entries_all_opened (pairs : list (string * session)) (address : string) :
  ~ In (EvOpen address None) (open_entries pairs).
Proof.
  unfold open_entries. intros H. apply in_map_iff in H.
  destruct H as [p [Hp _]]. discriminate.
Qed.


(** X4: after a successful [RfControl()], [get_available_gain_values]
    returns a dict with the names of [get_instrument_names], in the same
    order.  Under each name is the answer of that instrument to
    [ATT:ATTTabGet?] cut at the commas: no cached value holds a comma, and
    joined by commas the cached values give the answer back. *)
Theorem allowed_values_are_the_split_answers (timeout : Z)
    (line_termination : string) (w : world) (l : list event) (st' : state) :
  construct timeout line_termination w l = (Ret tt, st') ->
  exists names a new,
    get_instrument_names st' = (Ret names, st') /\
    get_available_gain_values st' = (Ret a, st') /\
    dict_keys a = names /\
    log st' = l ++ new /\
    forall name allowed,
      dict_get name a = Some allowed ->
      Forall (fun value => str_contains "," value = false) allowed /\
      exists ins table,
        instruments_getitem name st' = (Ret ins, st') /\
        In (EvQuery ins "ATT:ATTTabGet?" (Some table)) new /\
        allowed = split_on "," table /\
        String.concat "," allowed = table.
Proof.
  intros H. apply construct_Ret_full in H.
  destruct H as (rm & found & d & sessions & tables
                 & Hself & Hnd & Hlen & Hlt & Hin & Hlog).
  assert (Hd : instruments (self st') = InstrDict d) by (rewrite Hself; reflexivity).
  exists (dict_keys d), (combine (dict_keys d) (map (split_on ",") tables)).
  eexists. split; [apply (instruments_keys_run st' d Hd)|].
  split; [unfold get_available_gain_values, bind, get_self, ret; rewrite Hself; reflexivity|].
  split; [apply combine_keys; unfold dict_keys; rewrite !length_map; lia|].
  split; [exact Hlog|].
  intros name allowed Hget.
  assert (Hm : dict_mem name d = true).
  { assert (Hk : dict_mem name (combine (dict_keys d) (map (split_on ",") tables)) = true)
      by (apply dict_mem_get; eauto).
    unfold dict_mem in Hk |- *. rewrite combine_keys in Hk; [exact Hk|].
    unfold dict_keys. rewrite !length_map. lia. }
  apply dict_mem_get in Hm. destruct Hm as [ins Hins].
  destruct (dict_get_zip (split_on ",") name d tables ins Hlt Hins)
    as [table [Hpair Hg]].
  rewrite Hget in Hg. inversion Hg; subst allowed.
  split; [apply split_fields_plain|]. exists ins, table.
  split; [rewrite (instruments_getitem_run st' d name Hd), Hins; reflexivity|].
  split; [|split; [reflexivity | apply concat_split]].
  apply in_or_app. right. apply in_or_app. right. apply in_or_app. right.
  unfold table_entries. apply in_map_iff. exists (ins, table). auto.
Qed.


(** X6: when an [open_resource] fails during [RfControl()], the object is
    left with the list of the class as [instruments]; [__del__] run on it
    raises [AttributeError] at once and makes no pyvisa call, so that the
    sessions opened before the failure and the resource manager are not
    closed by it. *)
Theorem failed_open_defeats_destructor (timeout : Z) (line_termination : string)
    (w : world) (l new : list event) (r : result unit) (st' : state)
    (address : string) :
  construct timeout line_termination w l = (r, st') ->
  log st' = l ++ new ->
  In (EvOpen address None) new ->
  instruments (self st') = InstrList [] /\
  (exists e, r = Raise e) /\
  del st' =
    (Raise (AttributeError "'list' object has no attribute 'values'"), st').
Proof.
  rewrite construct_run. intros H Hlog Hin.
  assert (Hdel : forall st, instruments (self st) = InstrList [] ->
            del st = (Raise (AttributeError "'list' object has no attribute 'values'"), st)).
  { intros st Hi. unfold del. unfold bind at 1.
    assert (Hv : instruments_values st =
      (Raise (AttributeError "'list' object has no attribute 'values'"), st))
      by (unfold instruments_values, bind, get_self; rewrite Hi; reflexivity).
    rewrite Hv. reflexivity. }
  destruct (ResourceManager "@py" w) as [[rm|e] w1].
  2:{ inversion H; subst. cbn [log] in Hlog. apply app_inv_head in Hlog.
      subst new. destruct Hin as [Hin|[]]; discriminate. }
  destruct (list_resources rm w1) as [[found|e] w2].
  2:{ inversion H; subst. cbn [log] in Hlog. rewrite <- app_assoc in Hlog.
      apply app_inv_head in Hlog. subst new.
      destruct Hin as [Hin|[Hin|[]]]; discriminate. }
  destruct (get_acm_ctrl_list found) as [|ins0 rest0] eqn:Hnames.
  { inversion H; subst. unfold after_listing in Hlog. cbn [log] in Hlog.
    rewrite <- app_assoc in Hlog. apply app_inv_head in Hlog. subst new.
    destruct Hin as [Hin|[Hin|[]]]; discriminate. }
  rewrite <- Hnames in H.
  destruct (open_instruments rm (get_acm_ctrl_list found)
              (get_acm_ctrl_list found) [] (after_listing rm found w2 l))
    as [[d|e] st3] eqn:Hopen.
  - exfalso.
    pose proof (open_instruments_Ret _ _ _ _ _ _ _ Hopen) as [sessions [_ [Hl3 _]]].
    assert (Hlater : exists later,
              log st' = log st3 ++ later /\
              forallb (fun e => negb (is_open e)) later = true).
    { destruct (apply_settings (dict_values d) line_termination timeout
                  (store_instruments st3 d)) as [r5 st5] eqn:Hset.
      pose proof (tracks_apply_settings (fun e => negb (is_open e)) _ _ _
                    (fun _ _ => eq_refl) (fun _ _ => eq_refl) _ _ _ Hset)
        as [new5 [Hl5 [Hp5 _]]].
      cbn [store_instruments log] in Hl5.
      destruct r5 as [[]|e]; [|inversion H; subst; eauto].
      destruct (query_allowed (dict_items d) [] st5) as [r6 st6] eqn:Hq.
      pose proof (tracks_query_allowed (fun e => negb (is_open e)) _ _
                    (fun _ _ _ => eq_refl) _ _ _ Hq)
        as [new6 [Hl6 [Hp6 _]]].
      exists (new5 ++ new6). rewrite forallb_app, Hp5, Hp6.
      split; [|reflexivity].
      destruct r6; inversion H; subst; cbn [store_allowed log];
        rewrite Hl6, Hl5, <- app_assoc; reflexivity. }
    destruct Hlater as [later [Hl' Hp]].
    rewrite Hl', Hl3 in Hlog. unfold after_listing in Hlog. cbn [log] in Hlog.
    rewrite <- !app_assoc in Hlog. apply app_inv_head in Hlog. subst new.
    cbn in Hin. destruct Hin as [Hin|[Hin|Hin]]; try discriminate.
    apply in_app_or in Hin. destruct Hin as [Hin|Hin].
    + apply (open_entries_all_opened _ _ Hin).
    + rewrite forallb_forall in Hp. apply Hp in Hin. discriminate.
  - inversion H; subst.
    pose proof (open_instruments_prefix _ _ _ _ _ _ _ Hopen) as [Hs3 _].
    assert (Hi : instruments (self st') = InstrList [])
      by (rewrite Hs3; reflexivity).
    split; [exact Hi|]. split; [eauto | apply Hdel, Hi].
Qed.

End ConstructionRun.

(** ** The destructor *)

Section Destructor.

Context {FO : FloatOps} {V : Visa}.

Lemma visa_close_run (ins : session) (st : state) :
  visa_close ins st =
    (fst (close ins (env st)),
     {| self := self st; env := snd (close ins (env st));
        log := log st ++ [EvClose ins] |}).
Proof.
  unfold visa_close, call. destruct (close ins (env st)); reflexivity.
Qed.

(** The loop of [__del__]: it stops at the first [close] that raises. *)
Lemma close_all_run (units : list session) (st st' : state) (r : result unit) :
  close_all units st = (r, st') ->
  self st' = self st /\
  ((exists e n, r = Raise e /\ n < length units /\
                log st' = log st ++ map EvClose (firstn (S n) units)) \/
   (r = Ret tt /\ log st' = log st ++ map EvClose units)).
Proof.
  revert st. induction units as [|ins rest IH]; intros st H.
  - cbn in H. inversion H; subst. split; [reflexivity|]. right.
    cbn. rewrite app_nil_r. auto.
  - cbn [close_all] in H. unfold bind in H. rewrite visa_close_run in H.
    destruct (fst (close ins (env st))) as [[]|e].
    + apply IH in H. cbn [self log] in H. destruct H as [Hs [Hfail|[Hr Hl]]].
      * split; [exact Hs|]. left. destruct Hfail as [e [n [Hr [Hn Hl]]]].
        exists e, (S n). split; [exact Hr|]. split; [cbn; lia|].
        rewrite Hl, <- app_assoc. reflexivity.
      * split; [exact Hs|]. right. split; [exact Hr|].
        rewrite Hl, <- app_assoc. reflexivity.
    + inversion H; subst. split; [reflexivity|]. left.
      exists e, 0. cbn. repeat split; auto. lia.
Qed.

(** [__del__] on a constructed object. *)
Lemma del_run (st st' : state) (d : dict session)
    (rm : manager) (r : result unit) :
  instruments (self st) = InstrDict d ->
  resource_mgr (self st) = Some rm ->
  del st = (r, st') ->
  self st' = self st /\
  ((exists e n, r = Raise e /\ n < length d /\
                log st' = log st ++ map EvClose (firstn (S n) (dict_values d))) \/
   log st' = log st ++ close_entries (dict_values d)) /\
  (r = Ret tt -> log st' = log st ++ close_entries (dict_values d)).
Proof.
  intros Hd Hrm H. unfold del in H. unfold bind at 1 in H.
  assert (Hv : instruments_values st = (Ret (dict_values d), st))
    by (unfold instruments_values, bind, get_self; rewrite Hd; reflexivity).
  rewrite Hv in H. unfold bind at 1 in H.
  destruct (close_all (dict_values d) st) as [r1 st1] eqn:Hc.
  apply close_all_run in Hc. destruct Hc as [Hs [[e [n [Hr [Hn Hl]]]]|[Hr Hl]]].
  - subst r1. inversion H; subst. split; [exact Hs|].
    unfold dict_values in Hn. rewrite length_map in Hn.
    split; [left; exists e, n; auto | discriminate].
  - subst r1. unfold bind, get_self in H. rewrite Hs, Hrm in H.
    unfold visa_close_manager, call in H.
    destruct (close_manager rm (env st1)) as [r2 w2].
    inversion H; subst. cbn [self log]. split; [exact Hs|].
    assert (E : log st1 ++ [EvCloseManager] = log st ++ close_entries (dict_values d))
      by (rewrite Hl; unfold close_entries; rewrite <- app_assoc; reflexivity).
    split; [right; exact E | intros _; exact E].
Qed.


Lemma close_entries_In (units : list session) (ins : session) :
  In ins units -> In (EvClose ins) (close_entries units).
Proof.
  intros H. unfold close_entries. apply in_or_app. left.
  apply in_map. exact H.
Qed.

(** X13: open and close go together when the listed ACM addresses are
    pairwise distinct: after a successful [RfControl()], a [__del__] that
    returns has called [close] on every session the constructor opened,
    and has closed the resource manager. *)
Theorem destructor_closes_what_was_opened (timeout : Z)
    (line_termination : string) (w : world) (l : list event)
    (st1 st2 : state) :
  construct timeout line_termination w l = (Ret tt, st1) ->
  NoDup (resource_names (self st1)) ->
  del st1 = (Ret tt, st2) ->
  exists new,
    log st2 = l ++ new /\
    In EvCloseManager new /\
    forall address ins,
      In (EvOpen address (Some ins)) new -> In (EvClose ins) new.
Proof.
  intros Hc Hnd Hdel. apply construct_Ret in Hc.
  destruct Hc as (rm & w1 & found & w2 & st0 & d & st3 & allowed & later
                  & _ & _ & Hl0 & Hopen & Hself & Hl1 & Hlater & _).
  rewrite Hself in Hnd. cbn [resource_names] in Hnd.
  apply (open_instruments_distinct rm (get_acm_ctrl_list found) [] []) in Hopen;
    [|exact Hnd | reflexivity].
  destruct Hopen as [units [Hlen [Hd [Hl3 _]]]].
  change ([] ++ get_acm_ctrl_list found) with (get_acm_ctrl_list found) in Hd.
  change ([] ++ units) with units in Hd.
  assert (Hvals : dict_values d = units).
  { rewrite Hd. unfold dict_values. clear -Hlen.
    assert (G : forall (ks : list string) (vs : list session),
              length vs = length ks -> map snd (combine ks vs) = vs).
    { induction ks as [|k ks IH]; intros [|v vs] H; cbn in *;
        try discriminate; [reflexivity|]. rewrite IH; [reflexivity | lia]. }
    apply G. rewrite length_map, length_seq. exact Hlen. }
  assert (Hi : instruments (self st1) = InstrDict d) by (rewrite Hself; reflexivity).
  assert (Hm : resource_mgr (self st1) = Some rm) by (rewrite Hself; reflexivity).
  destruct (del_run st1 st2 d rm (Ret tt) Hi Hm Hdel) as [_ [_ Hlog]].
  specialize (Hlog eq_refl). rewrite Hvals in Hlog.
  eexists. split.
  - rewrite Hlog, Hl1, Hl3, Hl0, <- !app_assoc. reflexivity.
  - split.
    + do 3 (apply in_or_app; right). unfold close_entries.
      apply in_or_app. right. left. reflexivity.
    + intros address ins Hin.
      assert (Hu : In ins units).
      { cbn in Hin. destruct Hin as [Hin|[Hin|Hin]]; try discriminate.
        apply in_app_or in Hin. destruct Hin as [Hin|Hin].
        - apply in_map_iff in Hin. destruct Hin as [[a i] [E Hp]].
          cbn in E. inversion E; subst. apply in_combine_r in Hp. exact Hp.
        - apply in_app_or in Hin. destruct Hin as [Hin|Hin].
          + apply opened_sessions_In in Hin. rewrite Hlater in Hin. destruct Hin.
          + unfold close_entries in Hin. apply in_app_or in Hin.
            destruct Hin as [Hin|[Hin|[]]]; [|discriminate].
            apply in_map_iff in Hin. destruct Hin as [x [E _]]. discriminate. }
      do 3 (apply in_or_app; right). apply close_entries_In, Hu.
Qed.

End Destructor.

(** ** Control calls as a whole *)

Section Calls.

Context {FO : FloatOps} {V : Visa}.

Lemma run_op_on_list (op : control_op) (name : string) (st : state)
    (l : list session) :
  instruments (self st) = InstrList l ->
  run_op op name st =
    (Raise (AttributeError "'list' object has no attribute 'keys'"), st).
Proof.
  intros Hl.
  assert (Hk : instruments_keys st =
    (Raise (AttributeError "'list' object has no attribute 'keys'"), st))
    by (unfold instruments_keys, bind, get_self, raise; rewrite Hl; reflexivity).
  destruct op; cbn [run_op];
    unfold get_att_value, set_att_value, set_step_up, set_step_down;
    cbv zeta; unfold bind at 1; rewrite Hk; reflexivity.
Qed.

(** A control call either leaves the state as it is or makes one [query]
    on the instrument stored under the name. *)
Lemma run_op_step (op : control_op) (name : string) (st : state) :
  snd (run_op op name st) = st \/
  exists d ins command,
    instruments (self st) = InstrDict d /\
    dict_get name d = Some ins /\
    snd (run_op op name st) = after_query st ins command.
Proof.
  destruct (instruments (self st)) as [l|d] eqn:Hd.
  - left. rewrite (run_op_on_list op name st l Hd). reflexivity.
  - assert (Hmem : str_in name (dict_keys d) = dict_mem name d) by reflexivity.
    destruct (dict_get name d) as [ins|] eqn:Hins.
    + assert (Hm : dict_mem name d = true) by (apply dict_mem_get; eauto).
      destruct op as [|v| |].
      * right. exists d, ins, "ATT:ATTGetCurVal?".
        rewrite (plain_op_run GetAttValue name st d ins _ Hd Hins I eq_refl). auto.
      * assert (E : run_op (SetAttValue v) name st =
          match dict_get name (att_values_allowed (self st)) with
          | None => (Raise (KeyError name), st)
          | Some allowed =>
              if py_in v allowed then
                match float_of_pyval v with
                | Some x =>
                    (answer_triple
                       (fst (query ins ("ATT:ATTSet? " ++ format_f x) (env st))),
                     after_query st ins ("ATT:ATTSet? " ++ format_f x))
                | None => (Raise not_a_float, st)
                end
              else (Ret unsupported_triple, st)
          end).
        { cbn [run_op]. unfold set_att_value. cbv zeta. unfold bind at 1.
          rewrite (instruments_keys_run st d Hd), Hmem, Hm.
          unfold bind at 1. rewrite att_values_allowed_getitem_run.
          destruct (dict_get name (att_values_allowed (self st))) as [allowed|];
            [|reflexivity].
          destruct (py_in v allowed); [|reflexivity].
          unfold bind at 1. rewrite (instruments_getitem_run st d name Hd), Hins.
          unfold bind at 1. rewrite py_float_run.
          destruct (float_of_pyval v) as [x|]; [|reflexivity].
          apply exchange_run. }
        rewrite E.
        destruct (dict_get name (att_values_allowed (self st))) as [allowed|];
          [|left; reflexivity].
        destruct (py_in v allowed); [|left; reflexivity].
        destruct (float_of_pyval v) as [x|]; [|left; reflexivity].
        right. exists d, ins, ("ATT:ATTSet? " ++ format_f x)%string. auto.
      * right. exists d, ins, "ATT:ATTSetUp?".
        rewrite (plain_op_run SetStepUp name st d ins _ Hd Hins I eq_refl). auto.
      * right. exists d, ins, "ATT:ATTSetDown?".
        rewrite (plain_op_run SetStepDown name st d ins _ Hd Hins I eq_refl). auto.
    + left. assert (Hm : dict_mem name d = false)
        by (apply dict_mem_false_get; exact Hins).
      destruct op; cbn [run_op];
        unfold get_att_value, set_att_value, set_step_up, set_step_down;
        cbv zeta; unfold bind at 1; rewrite (instruments_keys_run st d Hd);
        rewrite Hmem, Hm; reflexivity.
Qed.

(** X1: a control method never assigns to the object and makes at most
    one pyvisa call: either the state is returned as it was, or the only
    change is one [query] on the session stored under the given name. *)
Theorem control_call_frame (op : control_op) (name : string)
    (st st' : state) (r : result triple) :
  run_op op name st = (r, st') ->
  self st' = self st /\
  (st' = st \/
   exists d ins command,
     instruments (self st) = InstrDict d /\
     dict_get name d = Some ins /\
     log st' = log st ++
       [EvQuery ins command (returned (fst (query ins command (env st))))] /\
     env st' = snd (query ins command (env st))).
Proof.
  intros H. pose proof (run_op_step op name st) as Hs. rewrite H in Hs.
  cbn [snd] in Hs. destruct Hs as [->|[d [ins [c [Hd [Hins ->]]]]]].
  - auto.
  - split; [reflexivity|]. right. exists d, ins, c. auto.
Qed.

Lemma run_ops_log (calls : list (control_op * string)) (st : state) :
  self (run_ops calls st) = self st /\
  exists new,
    log (run_ops calls st) = log st ++ new /\
    length new <= length calls /\
    forallb is_query new = true.
Proof.
  revert st. induction calls as [|[op name] calls IH]; intros st.
  - split; [reflexivity|]. exists []. rewrite app_nil_r. cbn. auto.
  - cbn [run_ops]. destruct (IH (snd (run_op op name st))) as [Hs [new [Hl [Hn Hq]]]].
    destruct (run_op_step op name st) as [E|[d [ins [c [_ [_ E]]]]]];
      rewrite E in *.
    + split; [exact Hs|]. exists new. cbn. auto.
    + split; [exact Hs|].
      exists (EvQuery ins c (returned (fst (query ins c (env st)))) :: new).
      rewrite Hl. cbn [after_query log]. rewrite <- app_assoc.
      cbn. split; [reflexivity|]. split; [lia | exact Hq].
Qed.

(** X2: whatever control calls are made, one after the other and also
    after calls that raised, the object keeps its attributes, so that the
    names and the cached allowed values stay those of the construction;
    the calls add nothing but [query] entries to the log, at most one per
    call: no session is opened, configured or closed. *)
Theorem control_calls_keep_registry (calls : list (control_op * string))
    (st : state) :
  self (run_ops calls st) = self st /\
  get_instrument_names (run_ops calls st) =
    (fst (get_instrument_names st), run_ops calls st) /\
  get_available_gain_values (run_ops calls st) =
    (fst (get_available_gain_values st), run_ops calls st) /\
  exists new,
    log (run_ops calls st) = log st ++ new /\
    length new <= length calls /\
    forallb is_query new = true.
Proof.
  destruct (run_ops_log calls st) as [Hs Hnew]. split; [exact Hs|].
  split; [|split; [|exact Hnew]].
  - unfold get_instrument_names, instruments_keys, bind, get_self.
    rewrite Hs. destruct (instruments (self st)); reflexivity.
  - unfold get_available_gain_values, bind, get_self, ret.
    rewrite Hs. reflexivity.
Qed.


(** X15: filtering a listing twice changes nothing more; the result is
    never longer than the listing, is empty exactly when no address holds
    ACM, and is the listing itself exactly when every address does. *)
Theorem get_acm_ctrl_list_filter_laws (interfaces_list : list string) :
  get_acm_ctrl_list (get_acm_ctrl_list interfaces_list) =
    get_acm_ctrl_list interfaces_list /\
  length (get_acm_ctrl_list interfaces_list) <= length interfaces_list /\
  (get_acm_ctrl_list interfaces_list = [] <->
   forall x, In x interfaces_list -> ~ has_substring "ACM" x) /\
  (get_acm_ctrl_list interfaces_list = interfaces_list <->
   Forall (has_substring "ACM") interfaces_list).
Proof.
  unfold get_acm_ctrl_list.
  split; [|split; [apply filter_length_le|split]].
  - induction interfaces_list as [|x l IH]; [reflexivity|]. cbn.
    destruct (str_contains "ACM" x) eqn:E; [|exact IH].
    cbn. rewrite E, IH. reflexivity.
  - induction interfaces_list as [|x l IH]; cbn.
    + split; [intros _ x [] | reflexivity].
    + destruct (str_contains "ACM" x) eqn:E.
      * split; [discriminate|]. intros H. exfalso.
        apply (H x); [left; reflexivity | apply str_contains_spec, E].
      * rewrite IH. split.
        -- intros H y [<-|Hy]; [|apply H, Hy].
           intros Hc. apply str_contains_spec in Hc. congruence.
        -- intros H y Hy. apply H. right. exact Hy.
  - induction interfaces_list as [|x l IH]; cbn.
    + split; [constructor | reflexivity].
    + destruct (str_contains "ACM" x) eqn:E.
      * split.
        -- intros H. inversion H as [H']. rewrite H'.
           constructor; [apply str_contains_spec, E | apply IH, H'].
        -- intros H. inversion H; subst. f_equal. apply IH. assumption.
      * split.
        -- intros H. exfalso.
           assert (Hl : length (filter (fun elem => str_contains "ACM" elem) l)
                        <= length l) by apply filter_length_le.
           rewrite H in Hl. cbn in Hl. lia.
        -- intros H. inversion H as [|? ? Hx]; subst.
           apply str_contains_spec in Hx. congruence.
Qed.

End Calls.

(** ** The script *)

Section ScriptRun.

Context {FO : FloatOps} {V : Visa}.

Lemma new_RfControl_Ret (p : process) (st1 : state) :
  construct default_timeout default_line_termination
    (env (machine p)) (log (machine p)) = (Ret tt, st1) ->
  new_RfControl p = (Done tt, {| machine := st1; stdout := stdout p |}).
Proof. intros H. unfold new_RfControl. rewrite H. reflexivity. Qed.

Lemma lift_get_available_gain_values (p : process) :
  lift get_available_gain_values p =
    (Done (att_values_allowed (self (machine p))), p).
Proof. destruct p. reflexivity. Qed.

(** X8: the script reads its action before it makes the controller, and
    the name only afterwards.  Without an action it ends with
    [IndexError] before any pyvisa call.  With an action that needs a name
    and none given, it ends with [IndexError] once the controller is made:
    the sessions are open and nothing is printed. *)
Theorem script_missing_arguments (prog action : string) (p : process)
    (st1 : state) :
  In action ["get_val"; "set"; "get"; "up"; "down"; "test"] ->
  construct default_timeout default_line_termination
    (env (machine p)) (log (machine p)) = (Ret tt, st1) ->
  main [] p = (Failed (IndexError "list index out of range"), p) /\
  main [prog] p = (Failed (IndexError "list index out of range"), p) /\
  main [prog; action] p =
    (Failed (IndexError "list index out of range"),
     {| machine := st1; stdout := stdout p |}).
Proof.
  intros Hin Hc. split; [reflexivity|]. split; [reflexivity|].
  cbn in Hin.
  destruct Hin as [<-|[<-|[<-|[<-|[<-|[<-|[]]]]]]];
    unfold main; cbn [tl item nth_error];
    unfold and_then at 1; cbn [done];
    unfold and_then at 1; rewrite (new_RfControl_Ret p st1 Hc);
    cbn [String.eqb Ascii.eqb Bool.eqb];
    try reflexivity.
Qed.

(** X9: the actions [get] and [get_val] are the same. *)
Theorem script_get_is_get_val (prog : string) (rest : list string) (p : process) :
  main (prog :: "get" :: rest) p = main (prog :: "get_val" :: rest) p.
Proof. reflexivity. Qed.

Lemma eqb_other (action known : string) :
  action <> known -> String.eqb action known = false.
Proof. intros H. destruct (String.eqb_spec action known); congruence. Qed.

(** X10: with a first argument that is none of the eight actions, the
    script still makes the controller, with all its pyvisa calls, and then
    ends without printing anything. *)
Theorem script_unknown_action (prog action : string) (rest : list string)
    (p : process) :
  ~ In action actions ->
  main (prog :: action :: rest) p = new_RfControl p.
Proof.
  intros Hn. unfold actions in Hn. cbn in Hn.
  unfold main. cbn [tl item nth_error].
  unfold and_then at 1. cbn [done].
  rewrite !eqb_other by (intros ->; apply Hn; tauto).
  unfold and_then, done. destruct (new_RfControl p) as [[[]|e] p']; reflexivity.
Qed.

(** The loop of [test] on values of the cached list of a known name. *)
Lemma sweep_run (opts : list string) (name : string) (d : dict session)
    (a : dict (list string)) (ins : session) (allowed vals : list string)
    (st : state) (out : list output) (r : outcome unit) (p' : process) :
  registry st d a ->
  dict_get name d = Some ins ->
  dict_get name a = Some allowed ->
  incl vals allowed ->
  nth_error opts 1 = Some name ->
  sweep opts vals {| machine := st; stdout := out |} = (r, p') ->
  self (machine p') = self st /\
  exists xs,
    stdout p' = out ++ sweep_lines xs /\
    ((r = Done tt /\ length xs = length vals) \/
     (exists e, r = Failed (Uncaught e) /\ length xs < length vals)).
Proof.
  intros Hreg Hins Hall. revert st out Hreg.
  induction vals as [|val rest IH]; intros st out Hreg Hincl Hopt H.
  - cbn in H. inversion H; subst. split; [reflexivity|]. exists [].
    cbn. rewrite app_nil_r. auto.
  - cbn [sweep] in H. unfold and_then at 1 in H. unfold item in H.
    rewrite Hopt in H. cbn [done] in H.
    unfold and_then at 1 in H. unfold lift in H. cbn [machine stdout] in H.
    change (set_att_value name (PyStr val)) with (run_op (SetAttValue (PyStr val)) name) in H.
    rewrite (run_op_registry _ _ _ _ _ Hreg), Hins, Hall in H.
    cbn [value_accepted py_in command_of float_of_pyval] in H.
    assert (Hval : str_in val allowed = true)
      by (apply str_in_spec, Hincl; left; reflexivity).
    rewrite Hval in H.
    destruct (float_of_str val) as [x|]; cbn [option_map] in H.
    + destruct (answer_triple
                  (fst (query ins ("ATT:ATTSet? " ++ format_f x) (env st))))
        as [t|e] eqn:Ht.
      * unfold answer_triple in Ht.
        destruct (fst (query ins ("ATT:ATTSet? " ++ format_f x) (env st)))
          as [answer|e]; [|discriminate].
        destruct (float_of_str answer) as [y|]; [|discriminate].
        inversion Ht; subst t; clear Ht.
        unfold and_then at 1, print, emit in H. cbn [machine stdout] in H.
        unfold and_then at 1, sleep, emit in H. cbn [machine stdout] in H.
        apply IH in H;
          [|exact Hreg | intros v Hv; apply Hincl; right; exact Hv | exact Hopt].
        destruct H as [Hs [xs [Hout Hr]]]. split; [exact Hs|].
        exists (y :: xs). split.
        -- rewrite Hout, <- !app_assoc. reflexivity.
        -- destruct Hr as [[Hr Hl]|[e [Hr Hl]]]; [left|right].
           ++ split; [exact Hr | cbn; lia].
           ++ exists e. split; [exact Hr | cbn; lia].
      * inversion H; subst. split; [reflexivity|]. exists [].
        cbn. rewrite app_nil_r. split; [reflexivity|]. right.
        exists e. split; [reflexivity | lia].
    + inversion H; subst. split; [reflexivity|]. exists [].
      cbn. rewrite app_nil_r. split; [reflexivity|]. right.
      exists not_a_float. split; [reflexivity | cbn; lia].
Qed.

(** X11: the action [test] on a name of the registry, once the controller
    is made: every value it tries comes from the cached list, so that none
    is refused; what is written is a success triple followed by a sleep of
    one second per value that was set, and nothing else.  The script ends
    normally exactly when it has gone through the whole list; otherwise it
    ends with the exception of the first value that could not be set.  The
    object is not changed. *)
Theorem script_test_sweep (prog name : string) (rest : list string)
    (p p' : process) (st1 : state) (d : dict session) (ins : session)
    (allowed : list string) (r : outcome unit) :
  construct default_timeout default_line_termination
    (env (machine p)) (log (machine p)) = (Ret tt, st1) ->
  instruments (self st1) = InstrDict d ->
  dict_get name d = Some ins ->
  dict_get name (att_values_allowed (self st1)) = Some allowed ->
  main (prog :: "test" :: name :: rest) p = (r, p') ->
  self (machine p') = self st1 /\
  exists xs,
    stdout p' = stdout p ++ sweep_lines xs /\
    ((r = Done tt /\ length xs = length allowed) \/
     (exists e, r = Failed (Uncaught e) /\ length xs < length allowed)).
Proof.
  intros Hc Hd Hins Hall H.
  destruct (construct_registry _ _ _ _ _ Hc) as [d' [a' [Hreg _]]].
  pose proof Hreg as [Hd' [Ha' _]]. rewrite Hd in Hd'. inversion Hd'; subst d'.
  unfold main in H. cbn [tl item nth_error] in H.
  unfold and_then at 1 in H. cbn [done] in H.
  unfold and_then at 1 in H. rewrite (new_RfControl_Ret p st1 Hc) in H.
  cbn [String.eqb Ascii.eqb Bool.eqb] in H.
  unfold and_then at 1 in H. rewrite lift_get_available_gain_values in H.
  cbn [machine] in H. unfold and_then at 1 in H. cbn [done] in H.
  rewrite Hall in H.
  apply (sweep_run _ name d a' ins allowed allowed st1) in H;
    [exact H | exact Hreg | exact Hins | rewrite <- Ha'; exact Hall
     | apply incl_refl | reflexivity].
Qed.

(** X12: the action [test] with a name that is not in the registry ends
    with [KeyError], not with a failure triple: nothing is printed. *)
Theorem script_test_unknown_name (prog name : string) (rest : list string)
    (p : process) (st1 : state) (names : list string) :
  construct default_timeout default_line_termination
    (env (machine p)) (log (machine p)) = (Ret tt, st1) ->
  get_instrument_names st1 = (Ret names, st1) ->
  ~ In name names ->
  main (prog :: "test" :: name :: rest) p =
    (Failed (Uncaught (KeyError name)),
     {| machine := st1; stdout := stdout p |}).
Proof.
  intros Hc Hnames Hn.
  pose proof (construct_Ret_full _ _ _ _ _ Hc)
    as (rm & found & d & sessions & tables & Hself & _ & _ & Hlt & _ & _).
  assert (Hd : instruments (self st1) = InstrDict d) by (rewrite Hself; reflexivity).
  unfold get_instrument_names in Hnames.
  rewrite (instruments_keys_run st1 d Hd) in Hnames.
  inversion Hnames; subst names; clear Hnames.
  assert (Hnone : dict_get name (att_values_allowed (self st1)) = None).
  { apply dict_mem_false_get. rewrite Hself. cbn [att_values_allowed].
    unfold dict_mem. rewrite combine_keys
      by (unfold dict_keys; rewrite !length_map; lia).
    destruct (str_in name (dict_keys d)) eqn:E; [|reflexivity].
    apply str_in_spec in E. contradiction. }
  unfold main. cbn [tl item nth_error].
  unfold and_then at 1. cbn [done].
  unfold and_then at 1. rewrite (new_RfControl_Ret p st1 Hc).
  cbn [String.eqb Ascii.eqb Bool.eqb].
  unfold and_then at 1. rewrite lift_get_available_gain_values.
  cbn [machine]. unfold and_then at 1. cbn [done].
  rewrite Hnone. reflexivity.
Qed.

Lemma new_RfControl_stdout (p p1 : process) (r : outcome unit) :
  new_RfControl p = (r, p1) -> stdout p1 = stdout p.
Proof.
  unfold new_RfControl.
  destruct (construct default_timeout default_line_termination
              (env (machine p)) (log (machine p))) as [[[]|e] st];
    intros H; inversion H; reflexivity.
Qed.

(** A method called from the script whose result is printed. *)
Lemma lift_then_print {A : Type} (m : M A) (show : A -> printed)
    (p p' : process) (r : outcome unit) :
  and_then (lift m) (fun x => print (show x)) p = (r, p') ->
  (r = Done tt /\ exists v, stdout p' = stdout p ++ [Printed v]) \/
  ((exists e, r = Failed e) /\ stdout p' = stdout p).
Proof.
  unfold and_then, lift, print, emit.
  destruct (m (machine p)) as [[a|e] st]; intros H; inversion H; subst; cbn.
  - left. eauto.
  - right. eauto.
Qed.

Lemma item_then (opts : list string) (i : nat) (k : string -> Script unit)
    (p p' : process) (r : outcome unit) :
  and_then (item opts i) k p = (r, p') ->
  (exists x, k x p = (r, p')) \/ ((exists e, r = Failed e) /\ p' = p).
Proof.
  unfold and_then, item. destruct (nth_error opts i) as [x|]; cbn.
  - eauto.
  - intros H; inversion H; subst. right. eauto.
Qed.

(** X16: every action but [test] prints at most once and never sleeps:
    when the script ends normally on one of the known actions, exactly one
    value was printed; when it ends normally on an unknown action, or with
    an exception, nothing was printed. *)
Theorem script_prints_once (prog action : string) (rest : list string)
    (p p' : process) (r : outcome unit) :
  action <> "test" ->
  main (prog :: action :: rest) p = (r, p') ->
  (r = Done tt /\ In action actions /\
   exists v, stdout p' = stdout p ++ [Printed v]) \/
  (r = Done tt /\ ~ In action actions /\ stdout p' = stdout p) \/
  ((exists e, r = Failed e) /\ stdout p' = stdout p).
Proof.
  intros Htest H. unfold main in H. cbn [tl item nth_error] in H.
  unfold and_then at 1 in H. cbn [done] in H.
  unfold and_then at 1 in H.
  destruct (new_RfControl p) as [[[]|e] p1] eqn:Hnew.
  2:{ inversion H; subst. right. right.
      split; [eauto | apply (new_RfControl_stdout _ _ _ Hnew)]. }
  apply new_RfControl_stdout in Hnew. rewrite <- Hnew.
  rewrite (eqb_other action "test" Htest) in H.
  assert (Hone : forall (m : string -> M triple) (i : nat),
    and_then (item (action :: rest) i)
      (fun name => and_then (lift (m name)) (fun t => print (PrintedTriple t))) p1
      = (r, p') ->
    (r = Done tt /\ exists v, stdout p' = stdout p1 ++ [Printed v]) \/
    ((exists e, r = Failed e) /\ stdout p' = stdout p1)).
  { intros m i Hm. apply item_then in Hm.
    destruct Hm as [[x Hx]|[He ->]]; [|right; auto].
    apply (lift_then_print (m x) PrintedTriple) in Hx. exact Hx. }
  unfold actions.
  destruct (String.eqb_spec action "names") as [->|N1].
  { apply (lift_then_print get_instrument_names PrintedNames) in H.
    destruct H as [[Hr Hv]|Hf]; [left|right; right; exact Hf].
    split; [exact Hr|]. split; [cbn; tauto | exact Hv]. }
  destruct (String.eqb_spec action "get_val") as [->|N2].
  { apply (Hone get_att_value 1) in H.
    destruct H as [[Hr Hv]|Hf]; [left|right; right; exact Hf].
    split; [exact Hr|]. split; [cbn; tauto | exact Hv]. }
  destruct (String.eqb_spec action "allow") as [->|N3].
  { apply (lift_then_print get_available_gain_values PrintedAllowed) in H.
    destruct H as [[Hr Hv]|Hf]; [left|right; right; exact Hf].
    split; [exact Hr|]. split; [cbn; tauto | exact Hv]. }
  destruct (String.eqb_spec action "set") as [->|N4].
  { apply item_then in H. destruct H as [[name H]|[He ->]];
      [|right; right; auto].
    apply item_then in H. destruct H as [[value H]|[He ->]];
      [|right; right; auto].
    apply (lift_then_print (set_att_value name (PyStr value)) PrintedTriple) in H.
    destruct H as [[Hr Hv]|Hf]; [left|right; right; exact Hf].
    split; [exact Hr|]. split; [cbn; tauto | exact Hv]. }
  destruct (String.eqb_spec action "get") as [->|N5].
  { apply (Hone get_att_value 1) in H.
    destruct H as [[Hr Hv]|Hf]; [left|right; right; exact Hf].
    split; [exact Hr|]. split; [cbn; tauto | exact Hv]. }
  destruct (String.eqb_spec action "up") as [->|N6].
  { apply (Hone set_step_up 1) in H.
    destruct H as [[Hr Hv]|Hf]; [left|right; right; exact Hf].
    split; [exact Hr|]. split; [cbn; tauto | exact Hv]. }
  destruct (String.eqb_spec action "down") as [->|N7].
  { apply (Hone set_step_down 1) in H.
    destruct H as [[Hr Hv]|Hf]; [left|right; right; exact Hf].
    split; [exact Hr|]. split; [cbn; tauto | exact Hv]. }
  inversion H; subst. right. left. split; [reflexivity|].
  split; [|reflexivity]. cbn. intuition congruence.
Qed.

End ScriptRun.

(** ** The simulated bench *)

Import Bench.

Lemma find_unit_address (addr : string) (r : list attenuator) (a : attenuator) :
  find_unit addr r = Some a -> address a = addr.
Proof.
  induction r as [|b r IH]; [discriminate|]. cbn.
  destruct (String.eqb_spec addr (address b)) as [->|Hne]; [|exact IH].
  intros H. inversion H. reflexivity.
Qed.

Lemma find_put_unit (addr : string) (r : list attenuator) (a a' : attenuator) :
  find_unit addr r = Some a -> address a' = addr ->
  find_unit addr (put_unit a' r) = Some a'.
Proof.
  intros Hf Ha. subst addr. induction r as [|b r IH]; [discriminate|].
  cbn in Hf |- *. destruct (String.eqb_spec (address a') (address b)) as [E|Hne].
  - cbn. rewrite String.eqb_refl. reflexivity.
  - cbn. destruct (String.eqb_spec (address a') (address b)); [contradiction|].
    apply IH, Hf.
Qed.

(** One exchange with an answering unit of the bench. *)
Lemma bench_exchange (op : control_op) (name : string) (st : state) (s : nat)
    (addr : string) (a a' : attenuator) (c line : string) (y : nat) :
  plugged st name s addr a ->
  answers a = true ->
  match op with SetAttValue _ => False | _ => True end ->
  command_of op = Some c ->
  command a c = (Some line, a') ->
  address a' = address a ->
  whole_of_str line = Some y ->
  exists st',
    run_op op name st = (Ret (true, Some y, ""), st') /\
    plugged st' name s addr a'.
Proof.
  intros [[d [Hd Hs]] [Hsa Hfu]] Hans Hop Hc Hcmd Haddr Hy.
  exists (after_query st s c).
  assert (Hq : query s c (env st) =
               (Ret line, with_rack (env st) (put_unit a' (rack (env st))))).
  { cbn. unfold bench_query. rewrite Hsa, Hfu, Hans, Hcmd. reflexivity. }
  split.
  - rewrite (plain_op_run op name st d s c Hd Hs Hop Hc), Hq.
    cbn [fst answer_triple]. cbn. rewrite Hy. reflexivity.
  - unfold plugged, after_query. rewrite Hq. cbn [self env snd].
    split; [eauto|]. split; [exact Hsa|]. cbn [rack with_rack].
    apply (find_put_unit addr _ a a' Hfu).
    rewrite Haddr. apply (find_unit_address _ _ _ Hfu).
Qed.


(** ** Runs on the bench *)

Lemma two_units_registry :
  registry (started two_units) two_instruments two_allowed.
Proof.
  split; [reflexivity|]. split; [reflexivity|]. intros name H. exact H.
Qed.

Lemma first_unplugged_registry :
  registry first_unplugged two_instruments two_allowed.
Proof.
  split; [reflexivity|]. split; [reflexivity|]. intros name H. exact H.
Qed.

(** The scenario of the two simulated devices. *)
Example two_units_scenario :
  fst (start two_units) = Ret tt /\
  fst (get_instrument_names (started two_units)) = Ret ["att0"; "att1"] /\
  fst (get_available_gain_values (started two_units)) = Ret two_allowed /\
  fst (set_att_value "att0" (PyStr "5") (started two_units)) =
    Ret (true, Some 5, "") /\
  fst (set_att_value "att0" (PyStr "7") (started two_units)) =
    Ret (false, None, "Unsupported attenuation value") /\
  fst (set_att_value "att0" (PyStr "5.0") (started two_units)) =
    Ret (false, None, "Unsupported attenuation value") /\
  fst (get_att_value "bogus" (started two_units)) =
    Ret (false, None, "Instrument name not found").
Proof. repeat split. Qed.

(** The destructor on the object left by a failed [open_resource]:
    [instruments] is still the list of the class, so that [__del__] raises
    before it has closed anything.  After a failed first query the dict is
    in place and [__del__] closes both sessions and the manager. *)
Example del_after_failed_construction :
  fst (del (started second_busy)) =
    Raise (AttributeError "'list' object has no attribute 'values'") /\
  sessions (env (snd (del (started second_busy)))) = [(0, acm0)] /\
  fst (del (started second_mute)) = Ret tt /\
  sessions (env (snd (del (started second_mute)))) = [].
Proof. repeat split. Qed.





Lemma unknown_name_messages_witness :
  dict_mem "bogus" two_instruments = false /\
  get_att_value "bogus" (started two_units) =
    (Ret (false, None, "Instrument name not found"), started two_units) /\
  set_att_value "bogus" (PyStr "5") (started two_units) =
    (Ret (false, None, "Instrument name not found"), started two_units) /\
  set_step_up "bogus" (started two_units) =
    (Ret (false, None, "Unsupported attenuation value"), started two_units) /\
  set_step_down "bogus" (started two_units) =
    (Ret (false, None, "Unsupported attenuation value"), started two_units).
Proof.
  split; [reflexivity|].
  destruct (unknown_name_messages (started two_units) two_instruments "bogus"
              eq_refl eq_refl) as [Hget [Hset [Hup Hdown]]].
  split; [exact Hget|]. split; [apply Hset|]. split; [exact Hup | exact Hdown].
Defined.





Lemma no_acm_resources_raises_witness :
  get_acm_ctrl_list (listed no_units) = [] /\
  exists st',
    start no_units = (Raise (NameError no_acm_message), st') /\
    String.prefix "No ACM resources found" no_acm_message = true /\
    log st' = [] ++ [EvResourceManager "@py"; EvListResources] /\
    opened_sessions (log st') = opened_sessions [] /\
    env st' = no_units /\
    instruments (self st') = InstrList [].
Proof.
  split; [reflexivity|].
  exact (no_acm_resources_raises (V := bench_visa) default_timeout default_line_termination
           no_units no_units no_units [] tt (listed no_units)
           eq_refl eq_refl eq_refl).
Defined.


Lemma returned_triple_consistent_witness :
  (status_of (true, Some 5, "") = true <-> value_of (true, Some 5, "") <> None) /\
  (status_of (true, Some 5, "") = true <-> message_of (true, Some 5, "") = "").
Proof.
  exact (returned_triple_consistent (SetAttValue (PyStr "5")) "att0"
           (started two_units)
           (after_query (started two_units) 0 "ATT:ATTSet? 5.000000")
           (true, Some 5, "") eq_refl).
Defined.

Lemma set_att_value_checks_before_sending_witness :
  (exists t,
     set_att_value "att0" (PyStr "7") (started two_units) =
       (Ret t, started two_units) /\
     status_of t = false /\ value_of t = None) /\
  (forall v' r st',
     set_att_value "att0" v' (started two_units) = (r, st') ->
     st' = started two_units \/
     exists ins allowed command,
       dict_get "att0" two_instruments = Some ins /\
       dict_get "att0" two_allowed = Some allowed /\
       py_in v' allowed = true /\
       st' = after_query (started two_units) ins command).
Proof.
  apply (set_att_value_checks_before_sending (started two_units)
           two_instruments two_allowed "att0" (PyStr "7") two_units_registry).
  right. exists ["0"; "5"; "10"]. split; reflexivity.
Defined.

(** ** Further runs on the bench *)

Lemma start_two_units :
  construct default_timeout default_line_termination
    (env (machine (fresh_process two_units)))
    (log (machine (fresh_process two_units))) = (Ret tt, started two_units).
Proof. vm_compute. reflexivity. Qed.

Lemma control_call_frame_witness :
  self (snd (run_op SetStepUp "att0" (started two_units))) =
    self (started two_units) /\
  (snd (run_op SetStepUp "att0" (started two_units)) = started two_units \/
   exists d ins command,
     instruments (self (started two_units)) = InstrDict d /\
     dict_get "att0" d = Some ins /\
     log (snd (run_op SetStepUp "att0" (started two_units))) =
       log (started two_units) ++
       [EvQuery ins command
          (returned (fst (query ins command (env (started two_units)))))] /\
     env (snd (run_op SetStepUp "att0" (started two_units))) =
       snd (query ins command (env (started two_units)))).
Proof.
  exact (control_call_frame (V := bench_visa) SetStepUp "att0" (started two_units) _ _
           (surjective_pairing _)).
Defined.


Lemma allowed_values_are_the_split_answers_witness :
  exists names a new,
    get_instrument_names (started two_units) = (Ret names, started two_units) /\
    get_available_gain_values (started two_units) = (Ret a, started two_units) /\
    dict_keys a = names /\
    log (started two_units) = [] ++ new /\
    forall name allowed,
      dict_get name a = Some allowed ->
      Forall (fun value => str_contains "," value = false) allowed /\
      exists ins table,
        instruments_getitem name (started two_units) =
          (Ret ins, started two_units) /\
        In (EvQuery ins "ATT:ATTTabGet?" (Some table)) new /\
        allowed = split_on "," table /\
        String.concat "," allowed = table.
Proof.
  exact (allowed_values_are_the_split_answers (V := bench_visa) default_timeout
           default_line_termination two_units [] (started two_units) eq_refl).
Defined.


Lemma failed_open_defeats_destructor_witness :
  instruments (self (started second_busy)) = InstrList [] /\
  (exists e, fst (start second_busy) = Raise e) /\
  del (started second_busy) =
    (Raise (AttributeError "'list' object has no attribute 'values'"),
     started second_busy).
Proof.
  apply (failed_open_defeats_destructor (V := bench_visa) default_timeout
           default_line_termination second_busy []
           (log (started second_busy)) (fst (start second_busy))
           (started second_busy) acm1 eq_refl eq_refl).
  vm_compute. tauto.
Defined.


Lemma destructor_closes_what_was_opened_witness :
  exists new,
    log (snd (del (started two_units))) = [] ++ new /\
    In EvCloseManager new /\
    forall address ins,
      In (EvOpen address (Some ins)) new -> In (EvClose ins) new.
Proof.
  apply (destructor_closes_what_was_opened (V := bench_visa) default_timeout
           default_line_termination two_units [] (started two_units)
           (snd (del (started two_units))) eq_refl).
  - repeat constructor; cbn; intuition discriminate.
  - vm_compute. reflexivity.
Defined.


Lemma script_missing_arguments_witness :
  main [] (fresh_process two_units) =
    (Failed (IndexError "list index out of range"), fresh_process two_units) /\
  main ["rfcontrol.py"] (fresh_process two_units) =
    (Failed (IndexError "list index out of range"), fresh_process two_units) /\
  main ["rfcontrol.py"; "up"] (fresh_process two_units) =
    (Failed (IndexError "list index out of range"),
     {| machine := started two_units; stdout := [] |}).
Proof.
  apply (script_missing_arguments (V := bench_visa) "rfcontrol.py" "up" (fresh_process (V := bench_visa) two_units)
           (started two_units)).
  - cbn. tauto.
  - exact start_two_units.
Defined.

Lemma script_unknown_action_witness :
  main ["rfcontrol.py"; "status"; "att0"] (fresh_process two_units) =
    new_RfControl (fresh_process two_units).
Proof.
  apply (script_unknown_action (V := bench_visa) "rfcontrol.py" "status" ["att0"]
           (fresh_process (V := bench_visa) two_units)).
  cbn. intuition discriminate.
Defined.

Lemma script_test_sweep_witness :
  self (machine (snd (main ["rfcontrol.py"; "test"; "att1"]
                        (fresh_process two_units)))) =
    self (started two_units) /\
  exists xs,
    stdout (snd (main ["rfcontrol.py"; "test"; "att1"]
                   (fresh_process two_units))) =
      stdout (fresh_process two_units) ++ sweep_lines xs /\
    ((fst (main ["rfcontrol.py"; "test"; "att1"] (fresh_process two_units)) =
        Done tt /\
      length xs = length ["0"; "5"; "10"]) \/
     (exists e,
        fst (main ["rfcontrol.py"; "test"; "att1"] (fresh_process two_units)) =
          Failed (Uncaught e) /\
        length xs < length ["0"; "5"; "10"])).
Proof.
  exact (script_test_sweep (V := bench_visa) "rfcontrol.py" "att1" [] (fresh_process (V := bench_visa) two_units)
           _ (started two_units) two_instruments 1 ["0"; "5"; "10"] _
           start_two_units eq_refl eq_refl eq_refl (surjective_pairing _)).
Defined.

Lemma script_test_unknown_name_witness :
  main ["rfcontrol.py"; "test"; "bogus"] (fresh_process two_units) =
    (Failed (Uncaught (KeyError "bogus")),
     {| machine := started two_units; stdout := [] |}).
Proof.
  apply (script_test_unknown_name (V := bench_visa) "rfcontrol.py" "bogus" []
           (fresh_process (V := bench_visa) two_units) (started two_units) ["att0"; "att1"]).
  - exact start_two_units.
  - vm_compute. reflexivity.
  - cbn. intuition discriminate.
Defined.

Lemma script_prints_once_witness :
  (fst (main ["rfcontrol.py"; "set"; "att0"; "5"] (fresh_process two_units)) =
     Done tt /\
   In "set" actions /\
   exists v,
     stdout (snd (main ["rfcontrol.py"; "set"; "att0"; "5"]
                    (fresh_process two_units))) =
       stdout (fresh_process two_units) ++ [Printed v]) \/
  (fst (main ["rfcontrol.py"; "set"; "att0"; "5"] (fresh_process two_units)) =
     Done tt /\
   ~ In "set" actions /\
   stdout (snd (main ["rfcontrol.py"; "set"; "att0"; "5"]
                  (fresh_process two_units))) =
     stdout (fresh_process two_units)) \/
  ((exists e,
      fst (main ["rfcontrol.py"; "set"; "att0"; "5"] (fresh_process two_units)) =
        Failed e) /\
   stdout (snd (main ["rfcontrol.py"; "set"; "att0"; "5"]
                  (fresh_process two_units))) =
     stdout (fresh_process two_units)).
Proof.
  apply (script_prints_once (V := bench_visa) "rfcontrol.py" "set" ["att0"; "5"]
           (fresh_process (V := bench_visa) two_units)).
  - discriminate.
  - apply surjective_pairing.
Defined.

(** The script on the two units: [set att0 5] prints the success triple,
    [test att1] prints three of them with a second after each. *)
Example script_on_two_units :
  stdout (snd (main ["rfcontrol.py"; "set"; "att0"; "5"]
                 (fresh_process two_units))) =
    [Printed (PrintedTriple (true, Some 5, ""))] /\
  stdout (snd (main ["rfcontrol.py"; "names"] (fresh_process two_units))) =
    [Printed (PrintedNames ["att0"; "att1"])] /\
  stdout (snd (main ["rfcontrol.py"; "test"; "att1"]
                 (fresh_process two_units))) =
    sweep_lines [0; 5; 10].
Proof. repeat split; vm_compute; reflexivity. Qed.
